(** * Origami lattice unit cells: generators and scene renderer

    A shallow embedding of [main.py]: the three pattern generators
    ([create_miura_ori], [create_waterbomb], [create_yoshimura]), the scene
    renderer ([plot_origami_lattice]) and the dispatch of the script.

    Vertex indices are Python integers, modelled as [Z].  Coordinates are
    floating-point numbers computed with numpy; the generators are written
    over an interface [NumOps] of the arithmetic they use, so every
    structural result holds whatever the arithmetic is.  The interface is
    interpreted in the real numbers (module [Ideal]) where a statement is
    about the geometry of the coordinates. *)

From Stdlib Require Import ZArith List Bool Lia String QArith.
From Stdlib Require Import Reals Lra.
Import ListNotations.

Local Open Scope Z_scope.

(** ** Arithmetic used by the source *)

(** The operations of Python floats and of numpy that [main.py] uses.
    [of_int] is the conversion of an integer literal or variable to a float
    ([2*a], [size/2], the [0] entries of an array of floats). *)
Class NumOps (F : Type) : Type := {
  of_int : Z -> F;
  fmul : F -> F -> F;
  fdiv : F -> F -> F;
  fneg : F -> F;
  np_pi : F;
  np_cos : F -> F;
  np_sin : F -> F;
  np_radians : F -> F
}.

(** ** Exceptions *)

(** The exceptions the modelled code can raise. *)
Inductive exn : Type :=
| ZeroDivisionError
| OverflowError
| IndexError.

Inductive result (A : Type) : Type :=
| Ok (a : A)
| Raise (e : exn).
Arguments Ok {A} a.
Arguments Raise {A} e.

Definition bind {A B : Type} (m : result A) (k : A -> result B) : result B :=
  match m with
  | Ok a => k a
  | Raise e => Raise e
  end.

Declare Scope result_scope.
Delimit Scope result_scope with result.
Notation "x <- m ;; k" := (bind m (fun x => k))
  (at level 61, m at next level, right associativity) : result_scope.

(** [for x in xs: body] over a state [s], stopping at the first exception. *)
Fixpoint for_each {A S : Type} (xs : list A) (body : S -> A -> result S) (s : S)
  : result S :=
  match xs with
  | [] => Ok s
  | x :: xs' => bind (body s x) (for_each xs' body)
  end.

(** ** Conversion of integers to floats *)

(** Python converts an integer to a float by rounding to the nearest double,
    ties to even, and raises [OverflowError] when the result is not finite:
    the integers that convert are those of magnitude below
    [2^1024 - 2^970], half way between the largest double and [2^1024]. *)
Definition float_limit : Z := 2 ^ 1024 - 2 ^ 970.

Definition fits_float (z : Z) : bool := Z.abs z <? float_limit.

(** ** Data model *)

(** [range(n)]: empty when [n <= 0]. *)
Definition range (n : Z) : list Z := map Z.of_nat (seq 0 (Z.to_nat n)).

(** [range(a, b)]. *)
Definition range2 (a b : Z) : list Z := map (fun k => a + k) (range (b - a)).

(** [len(l)] as a Python integer. *)
Definition len {A : Type} (l : list A) : Z := Z.of_nat (List.length l).

Section Model.

Context {F : Type} {ops : NumOps F}.

(** A row [[x, y, z]] of the vertex array. *)
Definition vertex : Type := F * F * F.

(** The tuple [(vertices, faces, mountain_folds, valley_folds)] a generator
    returns. *)
Record pattern : Type := mkPattern {
  vertices : list vertex;
  faces : list (list Z);
  mountain_folds : list (list Z);
  valley_folds : list (list Z)
}.

(** ** Generators *)

Definition create_miura_ori (size angle : F) : pattern :=
  let theta := np_radians angle in
  let a := size in
  let b := size in
  let h := fdiv size (of_int 2) in
  let vertices :=
    [ (of_int 0, of_int 0, of_int 0);
      (fmul a (np_cos theta), of_int 0, fmul a (np_sin theta));
      (fmul a (np_cos theta), b, fmul a (np_sin theta));
      (of_int 0, b, of_int 0);
      (fmul (fmul (of_int 2) a) (np_cos theta), of_int 0, of_int 0);
      (fmul (fmul (of_int 2) a) (np_cos theta), b, of_int 0) ] in
  let faces := [ [0; 1; 2; 3]; [1; 4; 5; 2] ] in
  let mountain_folds := [ [1; 2] ] in
  let valley_folds := [ [0; 1]; [2; 3]; [1; 4]; [2; 5] ] in
  mkPattern vertices faces mountain_folds valley_folds.

Definition create_waterbomb (size : F) : pattern :=
  let c := np_cos (fdiv np_pi (of_int 3)) in
  let s := np_sin (fdiv np_pi (of_int 3)) in
  let vertices :=
    [ (of_int 0, of_int 0, of_int 0);
      (size, of_int 0, of_int 0);
      (fmul size c, fmul size s, of_int 0);
      (fmul (fneg size) c, fmul size s, of_int 0);
      (fneg size, of_int 0, of_int 0);
      (fmul (fneg size) c, fmul (fneg size) s, of_int 0);
      (fmul size c, fmul (fneg size) s, of_int 0) ] in
  let faces :=
    [ [0; 1; 2]; [0; 2; 3]; [0; 3; 4]; [0; 4; 5]; [0; 5; 6]; [0; 6; 1] ] in
  let mountain_folds := [ [0; 2]; [0; 4]; [0; 6] ] in
  let valley_folds := [ [0; 1]; [0; 3]; [0; 5] ] in
  mkPattern vertices faces mountain_folds valley_folds.

(** Body of the first loop of [create_yoshimura]: two [append]s. *)
Definition yoshimura_vertex_step (size angle height : F)
  (vs : list vertex) (i : Z) : list vertex :=
  let theta := fmul (of_int i) angle in
  let vs := vs ++ [ (fmul size (np_cos theta), fmul size (np_sin theta), of_int 0) ] in
  vs ++ [ (fmul size (np_cos theta), fmul size (np_sin theta), height) ].

(** Body of the second loop. *)
Definition yoshimura_face_step (num_segments : Z)
  (fs : list (list Z)) (i : Z) : list (list Z) :=
  let i1 := 2 * i in
  let i2 := 2 * i + 1 in
  let i3 := 2 * ((i + 1) mod num_segments) in
  let i4 := 2 * ((i + 1) mod num_segments) + 1 in
  fs ++ [ [i1; i2; i4; i3] ].

(** Body of the third loop, on the pair (mountain_folds, valley_folds). *)
Definition yoshimura_fold_step
  (mv : list (list Z) * list (list Z)) (i : Z) : list (list Z) * list (list Z) :=
  if i mod 2 =? 0
  then (fst mv ++ [ [2 * i; 2 * i + 1] ], snd mv)
  else (fst mv, snd mv ++ [ [2 * i; 2 * i + 1] ]).

(** [2 * np.pi / num_segments] divides a Python float by a Python integer:
    the integer is first converted to a float, which raises [OverflowError]
    when it is too large, and the division raises [ZeroDivisionError] when
    it is 0.  The integers converted in the loops ([i * angle]) are in
    [range(num_segments)] and convert whenever [num_segments] does. *)
Definition create_yoshimura (size : F) (num_segments : Z) : result pattern :=
  if negb (fits_float num_segments) then Raise OverflowError
  else if num_segments =? 0 then Raise ZeroDivisionError
  else
    let angle := fdiv (fmul (of_int 2) np_pi) (of_int num_segments) in
    let height := fdiv size (of_int 2) in
    let vertices :=
      fold_left (yoshimura_vertex_step size angle height) (range num_segments) [] in
    let faces :=
      fold_left (yoshimura_face_step num_segments) (range num_segments) [] in
    let mv := fold_left yoshimura_fold_step (range num_segments) ([], []) in
    Ok (mkPattern vertices faces (fst mv) (snd mv)).

End Model.

Arguments vertex F : clear implicits.
Arguments pattern F : clear implicits.

(** ** Scene renderer *)

(** The [line=dict(...)] argument of a [Scatter3d] trace. *)
Record line_style : Type := mkLine {
  line_color : string;
  line_width : Z;
  line_dash : option string
}.

(** A trace added to the figure.  [opacity] holds the decimal literal of the
    source as a rational. *)
Inductive trace (F : Type) : Type :=
| Mesh3d (x y z : list F) (i j k : list Z) (opacity : Q) (colorscale : string)
| Scatter3d (x y z : list F) (mode : string) (line : line_style) (name : string).
Arguments Mesh3d {F} x y z i j k opacity colorscale.
Arguments Scatter3d {F} x y z mode line name.

(** The arguments of [fig.update_layout]. *)
Record layout : Type := mkLayout {
  aspectmode : string;
  xaxis_title : string;
  yaxis_title : string;
  zaxis_title : string;
  showlegend : bool;
  margin : Z * Z * Z * Z
}.

Record figure (F : Type) : Type := mkFigure {
  data : list (trace F);
  fig_layout : option layout
}.
Arguments mkFigure {F} data fig_layout.
Arguments data {F} f.
Arguments fig_layout {F} f.

Section Renderer.

Context {F : Type}.

Local Open Scope result_scope.

(** Row [vs[i]] of an array: numpy accepts [-len <= i < len] and raises
    [IndexError] otherwise. *)
Definition np_row {A : Type} (vs : list A) (i : Z) : result A :=
  let n := len vs in
  let j := if i <? 0 then n + i else i in
  if (0 <=? j) && (j <? n) then
    match nth_error vs (Z.to_nat j) with
    | Some v => Ok v
    | None => Raise IndexError
    end
  else Raise IndexError.

(** [vertices[face]], indexing with a list of integers. *)
Fixpoint np_take {A : Type} (vs : list A) (idx : list Z) : result (list A) :=
  match idx with
  | [] => Ok []
  | i :: idx' =>
      v <- np_row vs i ;;
      rest <- np_take vs idx' ;;
      Ok (v :: rest)
  end.

Definition vx (v : vertex F) : F := fst (fst v).
Definition vy (v : vertex F) : F := snd (fst v).
Definition vz (v : vertex F) : F := snd v.

(** [fig.add_trace(t)]. *)
Definition add_trace (fig : figure F) (t : trace F) : figure F :=
  mkFigure (data fig ++ [t]) (fig_layout fig).

(** The [go.Mesh3d(...)] trace of a face whose rows are [vertices_face]. *)
Definition face_mesh (vertices_face : list (vertex F)) (face : list Z)
  (colorscale : string) : trace F :=
  Mesh3d (map vx vertices_face) (map vy vertices_face) (map vz vertices_face)
         (repeat 0%Z (Z.to_nat (len face - 2)))
         (range2 1 (len face - 1))
         (range2 2 (len face))
         (7 # 10)%Q
         colorscale.

(** Body of the loop over the faces.  The closed outlines [x], [y], [z] are
    computed (and can raise) but are not used by the trace. *)
Definition plot_face (verts : list (vertex F)) (colorscale : string)
  (fig : figure F) (face : list Z) : result (figure F) :=
  vertices_face <- np_take verts face ;;
  v0 <- np_row vertices_face 0 ;;
  let x := map vx vertices_face ++ [vx v0] in
  let y := map vy vertices_face ++ [vy v0] in
  let z := map vz vertices_face ++ [vz v0] in
  Ok (add_trace fig (face_mesh vertices_face face colorscale)).

(** The [go.Scatter3d(...)] trace of a fold between the rows [p0], [p1]. *)
Definition fold_line (p0 p1 : vertex F) (line : line_style) (name : string)
  : trace F :=
  Scatter3d [vx p0; vx p1] [vy p0; vy p1] [vz p0; vz p1] "lines" line name.

(** Body of the loops over the folds: [fold[0]] and [fold[1]] index a Python
    list, [vertices[., c]] indexes the array. *)
Definition plot_fold (verts : list (vertex F)) (line : line_style) (name : string)
  (fig : figure F) (fold : list Z) : result (figure F) :=
  f0 <- np_row fold 0 ;;
  p0 <- np_row verts f0 ;;
  f1 <- np_row fold 1 ;;
  p1 <- np_row verts f1 ;;
  Ok (add_trace fig (fold_line p0 p1 line name)).

Definition mountain_line : line_style := mkLine "red" 4 None.
Definition valley_line : line_style := mkLine "blue" 4 (Some "dash"%string).

Definition scene_layout : layout :=
  mkLayout "cube" "X" "Y" "Z" true (0, 0, 0, 0)%Z.

Definition plot_origami_lattice (verts : list (vertex F))
  (fcs mountain valley : list (list Z)) (colorscale : string)
  : result (figure F) :=
  let fig := mkFigure [] None in
  fig <- for_each fcs (plot_face verts colorscale) fig ;;
  fig <- for_each mountain (plot_fold verts mountain_line "Mountain fold") fig ;;
  fig <- for_each valley (plot_fold verts valley_line "Valley fold") fig ;;
  Ok (mkFigure (data fig) (Some scene_layout)).

End Renderer.

(** ** The script *)

(** The options of the pattern select box. *)
Inductive pattern_type : Type :=
| Miura_ori
| Waterbomb
| Yoshimura.

(** The options of the colour scheme select box. *)
Definition color_schemes : list string :=
  [ "Viridis"; "Plasma"; "Inferno"; "Magma"; "Rainbow" ]%string.

Section Script.

Context {F : Type} {ops : NumOps F}.

(** The dispatch on [pattern_type] of the visualization area: each generator
    receives the parameters it declares. *)
Definition generate (pt : pattern_type) (size angle : F) (segments : Z)
  : result (pattern F) :=
  match pt with
  | Miura_ori => Ok (create_miura_ori size angle)
  | Waterbomb => Ok (create_waterbomb size)
  | Yoshimura => create_yoshimura size segments
  end.

(** Generation followed by rendering. *)
Definition visualize (pt : pattern_type) (size angle : F) (segments : Z)
  (colorscale : string) : result (figure F) :=
  bind (generate pt size angle segments) (fun p =>
    plot_origami_lattice (vertices p) (faces p) (mountain_folds p) (valley_folds p)
      colorscale).

End Script.

(** ** Interpretation in the real numbers *)

Module Ideal.

#[export] Instance RealOps : NumOps R := {|
  of_int := IZR;
  fmul := Rmult;
  fdiv := Rdiv;
  fneg := Ropp;
  np_pi := PI;
  np_cos := cos;
  np_sin := sin;
  np_radians := fun x => (x * (PI / 180))%R
|}.

End Ideal.

(** ** Properties of pattern instances *)

Section Properties.

Context {F : Type}.

(** Every index of a face or of a fold is an index into the vertex list. *)
Definition valid_index (n : nat) (i : Z) : bool :=
  (0 <=? i) && (i <? Z.of_nat n).

Definition indices_in_boundsb (p : pattern F) : bool :=
  forallb (forallb (valid_index (List.length (vertices p))))
          (faces p ++ mountain_folds p ++ valley_folds p).

Definition indices_in_bounds (p : pattern F) : Prop :=
  forall l i,
    In l (faces p ++ mountain_folds p ++ valley_folds p) ->
    In i l -> 0 <= i < Z.of_nat (List.length (vertices p)).

(** Two folds are the same unordered pair of indices. *)
Definition same_edge (e1 e2 : list Z) : Prop :=
  e1 = e2 \/ e1 = rev e2.

Definition same_edgeb (e1 e2 : list Z) : bool :=
  if list_eq_dec Z.eq_dec e1 e2 then true
  else if list_eq_dec Z.eq_dec e1 (rev e2) then true else false.

Definition folds_disjoint (p : pattern F) : Prop :=
  forall m v, In m (mountain_folds p) -> In v (valley_folds p) -> ~ same_edge m v.

Definition folds_disjointb (p : pattern F) : bool :=
  forallb (fun m => forallb (fun v => negb (same_edgeb m v)) (valley_folds p))
          (mountain_folds p).

(** The edges of a face: consecutive entries, the last one paired with the
    first. *)
Definition face_edges (f : list Z) : list (Z * Z) :=
  match f with
  | [] => []
  | a :: t => combine f (t ++ [a])
  end.

(** A fold lies on an edge of a face, in either direction. *)
Definition on_face_edge (fold face : list Z) : Prop :=
  exists a b, fold = [a; b] /\
    (In (a, b) (face_edges face) \/ In (b, a) (face_edges face)).

Definition on_face_edgeb (fold face : list Z) : bool :=
  match fold with
  | [a; b] =>
      existsb (fun e => (Z.eqb (fst e) a && Z.eqb (snd e) b)
                        || (Z.eqb (fst e) b && Z.eqb (snd e) a))
              (face_edges face)
  | _ => false
  end.

Definition folds_on_face_edges (p : pattern F) : Prop :=
  forall fold, In fold (mountain_folds p ++ valley_folds p) ->
    exists face, In face (faces p) /\ on_face_edge fold face.

Definition folds_on_face_edgesb (p : pattern F) : bool :=
  forallb (fun fold => existsb (on_face_edgeb fold) (faces p))
          (mountain_folds p ++ valley_folds p).

(** What the renderer needs of an instance: the data model's faces of at
    least three indices, folds of two indices, all indices in bounds. *)
Definition well_formed (p : pattern F) : Prop :=
  indices_in_bounds p /\
  (forall f, In f (faces p) -> (3 <= List.length f)%nat) /\
  (forall e, In e (mountain_folds p ++ valley_folds p) -> List.length e = 2%nat).

Definition well_formedb (p : pattern F) : bool :=
  indices_in_boundsb p
  && forallb (fun f => (3 <=? List.length f)%nat) (faces p)
  && forallb (fun e => (List.length e =? 2)%nat)
             (mountain_folds p ++ valley_folds p).

(** [rows] are the rows of the vertex array that the indices [idx] name. *)
Definition rows_of (verts : list (vertex F)) (idx : list Z)
  (rows : list (vertex F)) : Prop :=
  Forall2 (fun i v => nth_error verts (Z.to_nat i) = Some v) idx rows.

(** First and last two entries of a face. *)
Definition first_two (f : list Z) : list Z := firstn 2 f.
Definition last_two (f : list Z) : list Z := skipn (List.length f - 2) f.

(** The triangles of a mesh trace: the entries of [i], [j], [k] taken
    together. *)
Definition triangles (t : trace F) : list (Z * Z * Z) :=
  match t with
  | Mesh3d _ _ _ i j k _ _ => combine (combine i j) k
  | Scatter3d _ _ _ _ _ _ => []
  end.

Definition is_mesh (t : trace F) : bool :=
  match t with
  | Mesh3d _ _ _ _ _ _ _ _ => true
  | Scatter3d _ _ _ _ _ _ => false
  end.

(** The fan of a polygon of [n] corners from its first corner:
    [(0, k, k+1)] for [k = 1 .. n-2]. *)
Definition fan_triangles (n : nat) : list (Z * Z * Z) :=
  map (fun k => (0, Z.of_nat k, Z.of_nat k + 1)) (seq 1 (n - 2)).

(** A trace is the fan surface of a face: a mesh on the coordinates of the
    face's vertices, in the order of the face, whose triangles are the fan
    from the first of them, with opacity 0.7 and the given colour scheme. *)
Definition fan_surface (verts : list (vertex F)) (colorscale : string)
  (face : list Z) (t : trace F) : Prop :=
  exists rows i j k,
    rows_of verts face rows /\
    t = Mesh3d (map (fun v => fst (fst v)) rows)
               (map (fun v => snd (fst v)) rows)
               (map (fun v => snd v) rows)
               i j k (7 # 10)%Q colorscale /\
    combine (combine i j) k = fan_triangles (List.length face).

End Properties.

(** ** The Yoshimura ring in closed form *)

Section YoshimuraSpec.

Context {F : Type} {ops : NumOps F}.

(** Angle of segment [i]: [i * (2 pi / num_segments)]. *)
Definition segment_angle (num_segments i : Z) : F :=
  fmul (of_int i) (fdiv (fmul (of_int 2) np_pi) (of_int num_segments)).

Definition base_vertex (size : F) (num_segments i : Z) : vertex F :=
  (fmul size (np_cos (segment_angle num_segments i)),
   fmul size (np_sin (segment_angle num_segments i)),
   of_int 0).

Definition top_vertex (size : F) (num_segments i : Z) : vertex F :=
  (fmul size (np_cos (segment_angle num_segments i)),
   fmul size (np_sin (segment_angle num_segments i)),
   fdiv size (of_int 2)).

(** Indices of the base and top vertex of segment [i]. *)
Definition base (i : Z) : Z := 2 * i.
Definition top (i : Z) : Z := 2 * i + 1.

(** The quadrilateral of segment [i]: base_i, top_i, top_(i+1), base_(i+1),
    the successor taken modulo [num_segments]. *)
Definition segment_face (num_segments i : Z) : list Z :=
  [ base i; top i; top ((i + 1) mod num_segments); base ((i + 1) mod num_segments) ].

(** The vertical edge of segment [i]. *)
Definition segment_fold (i : Z) : list Z := [ base i; top i ].

(** Parity test of the third loop. *)
Definition is_even_segment (i : Z) : bool := i mod 2 =? 0.

(** The ring of [num_segments] segments: two vertices, one face and one fold
    per segment, the folds sorted by the parity of the segment. *)
Definition yoshimura_ring (size : F) (num_segments : Z) : pattern F :=
  mkPattern
    (flat_map (fun i => [base_vertex size num_segments i;
                         top_vertex size num_segments i]) (range num_segments))
    (map (segment_face num_segments) (range num_segments))
    (map segment_fold (filter is_even_segment (range num_segments)))
    (map segment_fold
         (filter (fun i => negb (is_even_segment i)) (range num_segments))).

End YoshimuraSpec.

(** ** What the renderer accepts and what it draws *)

Section RendererSpec.

Context {F : Type}.

Local Open Scope result_scope.

(** The indices numpy accepts for an axis of length [n]. *)
Definition np_valid (n i : Z) : bool := (- n <=? i) && (i <? n).

(** The position a valid index names: negative indices count from the end. *)
Definition np_norm (n i : Z) : Z := if i <? 0 then n + i else i.

(** A face the first loop can draw: not empty, every index accepted. *)
Definition face_renderable (verts : list (vertex F)) (face : list Z) : bool :=
  match face with
  | [] => false
  | _ :: _ => forallb (np_valid (len verts)) face
  end.

(** A fold the other loops can draw: at least two entries, the first two
    accepted as indices. *)
Definition fold_renderable (verts : list (vertex F)) (fold : list Z) : bool :=
  match fold with
  | a :: b :: _ => np_valid (len verts) a && np_valid (len verts) b
  | _ => false
  end.

Definition renderable (verts : list (vertex F))
  (fcs mountain valley : list (list Z)) : bool :=
  forallb (face_renderable verts) fcs
  && forallb (fold_renderable verts) mountain
  && forallb (fold_renderable verts) valley.

(** The trace one iteration of the first loop adds. *)
Definition face_trace (verts : list (vertex F)) (colorscale : string)
  (face : list Z) : result (trace F) :=
  rows <- np_take verts face ;;
  v0 <- np_row rows 0 ;;
  Ok (face_mesh rows face colorscale).

(** The trace one iteration of a fold loop adds. *)
Definition fold_trace (verts : list (vertex F)) (line : line_style)
  (name : string) (fold : list Z) : result (trace F) :=
  f0 <- np_row fold 0 ;;
  p0 <- np_row verts f0 ;;
  f1 <- np_row fold 1 ;;
  p1 <- np_row verts f1 ;;
  Ok (fold_line p0 p1 line name).

(** The results of [f] on the elements of a list, up to the first exception. *)
Fixpoint traverse {A B : Type} (f : A -> result B) (xs : list A)
  : result (list B) :=
  match xs with
  | [] => Ok []
  | x :: xs' =>
      y <- f x ;;
      ys <- traverse f xs' ;;
      Ok (y :: ys)
  end.

(** A trace is the surface of a face: the mesh on the coordinates of the
    vertices the face names (a negative index counting from the end), in
    the order of the face, with the index lists [i = [0, ..., 0]],
    [j = [1, ..., len-2]] and [k = [2, ..., len-1]] of the fan, opacity 0.7
    and the given colour scheme. *)
Definition face_surface (verts : list (vertex F)) (colorscale : string)
  (face : list Z) (t : trace F) : Prop :=
  exists rows,
    Forall2 (fun i v => nth_error verts (Z.to_nat (np_norm (len verts) i)) = Some v)
            face rows /\
    t = Mesh3d (map (fun v => fst (fst v)) rows)
               (map (fun v => snd (fst v)) rows)
               (map (fun v => snd v) rows)
               (repeat 0 (List.length face - 2))
               (map Z.of_nat (seq 1 (List.length face - 2)))
               (map Z.of_nat (seq 2 (List.length face - 2)))
               (7 # 10)%Q colorscale.

(** A trace is the line of a fold: a two-point line between the vertices
    the first two entries of the fold name, in the given style. *)
Definition fold_segment (verts : list (vertex F)) (line : line_style)
  (name : string) (fold : list Z) (t : trace F) : Prop :=
  exists a b rest p0 p1,
    fold = a :: b :: rest /\
    nth_error verts (Z.to_nat (np_norm (len verts) a)) = Some p0 /\
    nth_error verts (Z.to_nat (np_norm (len verts) b)) = Some p1 /\
    t = Scatter3d [fst (fst p0); fst (fst p1)]
                  [snd (fst p0); snd (fst p1)]
                  [snd p0; snd p1]
                  "lines" line name.

(** The index lists of a trace fit its coordinate lists: a mesh has as many
    [y] and [z] as [x], as many [j] and [k] as [i], and every entry of [i],
    [j], [k] is a position in [x]; a line has two points. *)
Definition trace_consistent (t : trace F) : Prop :=
  match t with
  | Mesh3d x y z i j k _ _ =>
      List.length y = List.length x /\ List.length z = List.length x /\
      List.length j = List.length i /\ List.length k = List.length i /\
      forall e, In e (i ++ j ++ k) -> 0 <= e < len x
  | Scatter3d x y z _ _ _ =>
      List.length x = 2%nat /\ List.length y = 2%nat /\ List.length z = 2%nat
  end.

End RendererSpec.

(** Number of traces of the scene of a pattern: faces and folds. *)
Definition trace_count (pt : pattern_type) (segments : Z) : nat :=
  match pt with
  | Miura_ori => 7
  | Waterbomb => 12
  | Yoshimura => 2 * Z.to_nat segments
  end.

(** ** Distances, in real arithmetic *)

(** Vertex [i] of a list of points, the origin when there is none. *)
Definition vertex_at (vs : list (vertex R)) (i : Z) : vertex R :=
  nth (Z.to_nat i) vs (0, 0, 0)%R.

(** Square of the distance between two points. *)
Definition dist2 (p q : vertex R) : R :=
  ((fst (fst p) - fst (fst q)) * (fst (fst p) - fst (fst q))
   + (snd (fst p) - snd (fst q)) * (snd (fst p) - snd (fst q))
   + (snd p - snd q) * (snd p - snd q))%R.

(** Every edge of every face has length [size]. *)
Definition faces_equilateral (p : pattern R) (size : R) : Prop :=
  forall face a b,
    In face (faces p) -> In (a, b) (face_edges face) ->
    dist2 (vertex_at (vertices p) a) (vertex_at (vertices p) b) = (size * size)%R.

(** Computes the positions [Z.to_nat z] of the goal. *)
Ltac eval_vertices :=
  repeat match goal with
         | |- context [Z.to_nat ?z] =>
             let k := eval vm_compute in (Z.to_nat z) in
             change (Z.to_nat z) with k
         end.

(** ** Lemmas on ranges and loops *)

Lemma range_length (n : Z) : List.length (range n) = Z.to_nat n.
Proof. unfold range. now rewrite length_map, length_seq. Qed.

Lemma range_In (n i : Z) : In i (range n) <-> 0 <= i < n.
Proof.
  unfold range. rewrite in_map_iff. split.
  - intros [k [<- Hk]]. apply in_seq in Hk. lia.
  - intros Hi. exists (Z.to_nat i). split; [lia | apply in_seq; lia].
Qed.

Lemma range_nth_error (n : Z) (k : nat) :
  (k < Z.to_nat n)%nat -> nth_error (range n) k = Some (Z.of_nat k).
Proof.
  intros Hk. unfold range.
  rewrite nth_error_map, nth_error_seq.
  destruct (Nat.ltb_spec k (Z.to_nat n)); [reflexivity | lia].
Qed.

Lemma range_succ (n : Z) : 0 <= n -> range (n + 1) = range n ++ [n].
Proof.
  intros Hn. unfold range.
  replace (Z.to_nat (n + 1)) with (Z.to_nat n + 1)%nat by lia.
  rewrite seq_app, map_app. cbn. now rewrite Z2Nat.id.
Qed.

(** A loop whose body appends [g x] to the accumulator builds a [flat_map]. *)
Lemma fold_left_append {A B : Type} (step : list B -> A -> list B)
  (g : A -> list B) :
  (forall s x, step s x = s ++ g x) ->
  forall l acc, fold_left step l acc = acc ++ flat_map g l.
Proof.
  intros Hstep l. induction l as [| x l IH]; intros acc; cbn.
  - now rewrite app_nil_r.
  - now rewrite IH, Hstep, <- app_assoc.
Qed.

Lemma flat_map_singleton {A B : Type} (g : A -> B) (l : list A) :
  flat_map (fun x => [g x]) l = map g l.
Proof. induction l as [| x l IH]; cbn; [reflexivity | now rewrite IH]. Qed.

(** Entries of a list built two at a time. *)
Lemma flat_map_pair_nth_error {A B : Type} (f g : A -> B) (l : list A) :
  forall k x, nth_error l k = Some x ->
    nth_error (flat_map (fun a => [f a; g a]) l) (2 * k) = Some (f x) /\
    nth_error (flat_map (fun a => [f a; g a]) l) (2 * k + 1) = Some (g x).
Proof.
  induction l as [| a l IH]; intros k x Hk.
  - destruct k; discriminate.
  - destruct k as [| k].
    + injection Hk as ->. now cbn.
    + cbn in Hk. specialize (IH k x Hk).
      replace (2 * S k)%nat with (S (S (2 * k))) by lia.
      replace (S (S (2 * k)) + 1)%nat with (S (S (2 * k + 1))) by lia.
      exact IH.
Qed.

Lemma flat_map_pair_length {A B : Type} (f g : A -> B) (l : list A) :
  List.length (flat_map (fun a => [f a; g a]) l) = (2 * List.length l)%nat.
Proof. induction l as [| a l IH]; cbn; [reflexivity | rewrite IH; lia]. Qed.

(** ** The code on small inputs *)

Section Examples.

Context {F : Type} {ops : NumOps F}.

Example range_3 : range 3 = [0; 1; 2].
Proof. reflexivity. Qed.

Example range_negative : range (-2) = [].
Proof. reflexivity. Qed.

Example range2_1_3 : range2 1 3 = [1; 2].
Proof. reflexivity. Qed.

Example np_row_last : np_row [10; 20; 30] (-1) = Ok 30.
Proof. reflexivity. Qed.

Example np_row_out_of_range : np_row [10; 20; 30] 3 = Raise IndexError.
Proof. reflexivity. Qed.

Example yoshimura_4_faces (size : F) :
  exists p, create_yoshimura size 4 = Ok p /\
    faces p = [ [0; 1; 3; 2]; [2; 3; 5; 4]; [4; 5; 7; 6]; [6; 7; 1; 0] ] /\
    mountain_folds p = [ [0; 1]; [4; 5] ] /\
    valley_folds p = [ [2; 3]; [6; 7] ].
Proof. eexists. split; [reflexivity |]. repeat split. Qed.

Example yoshimura_negative (size : F) :
  create_yoshimura size (-3) = Ok (mkPattern [] [] [] []).
Proof. reflexivity. Qed.

Example yoshimura_too_many_segments (size : F) :
  create_yoshimura size (- 2 ^ 1024) = Raise OverflowError.
Proof. reflexivity. Qed.

Example quad_mesh_indices (rows : list (vertex F)) :
  triangles (face_mesh rows [4; 5; 7; 6] "Viridis") = [ (0, 1, 2); (0, 2, 3) ].
Proof. reflexivity. Qed.

Example face_out_of_range (v : vertex F) :
  plot_origami_lattice [v; v] [ [0; 1; 2] ] [] [] "Viridis" = Raise IndexError.
Proof. reflexivity. Qed.

End Examples.

(** ** The Yoshimura loops in closed form *)

Section YoshimuraLoops.

Context {F : Type} {ops : NumOps F}.

Lemma yoshimura_fold_loop (l : list Z) :
  forall m v,
    fold_left yoshimura_fold_step l (m, v) =
    (m ++ map segment_fold (filter is_even_segment l),
     v ++ map segment_fold (filter (fun i => negb (is_even_segment i)) l)).
Proof.
  induction l as [| i l IH]; intros m v.
  - cbn. now rewrite !app_nil_r.
  - cbn [fold_left filter].
    replace (yoshimura_fold_step (m, v) i)
      with (if is_even_segment i
            then (m ++ [segment_fold i], v) else (m, v ++ [segment_fold i]))
      by reflexivity.
    destruct (is_even_segment i); cbn [negb map]; rewrite IH;
      now rewrite <- app_assoc.
Qed.

(** For a segment count other than 0 the generator returns the ring built
    segment by segment. *)
Lemma create_yoshimura_closed_form (size : F) (n : Z) :
  n <> 0 ->
  Z.abs n < float_limit ->
  create_yoshimura size n = Ok (yoshimura_ring size n).
Proof.
  intros Hn Hfit. unfold create_yoshimura, yoshimura_ring, fits_float.
  destruct (Z.ltb_spec (Z.abs n) float_limit) as [_ | Hbig]; [| lia].
  cbn [negb].
  destruct (Z.eqb_spec n 0) as [-> | _]; [contradiction |].
  cbv zeta. f_equal.
  rewrite (fold_left_append _ (fun i => [base_vertex size n i; top_vertex size n i])).
  2: { intros s x. unfold yoshimura_vertex_step. cbv zeta.
       now rewrite <- app_assoc. }
  rewrite (fold_left_append _ (fun i => [segment_face n i])).
  2: { intros s x. reflexivity. }
  rewrite yoshimura_fold_loop, flat_map_singleton. reflexivity.
Qed.

Lemma create_yoshimura_zero (size : F) :
  create_yoshimura size 0 = Raise ZeroDivisionError.
Proof. reflexivity. Qed.


(** A segment count that does not convert to a float gives no instance. *)
Lemma create_yoshimura_overflow (size : F) (n : Z) :
  float_limit <= Z.abs n ->
  create_yoshimura size n = Raise OverflowError.
Proof.
  intros Hbig. unfold create_yoshimura, fits_float.
  destruct (Z.ltb_spec (Z.abs n) float_limit) as [Hfit | _]; [lia | reflexivity].
Qed.

End YoshimuraLoops.

(** ** Checking the properties by computation *)

Section Reflection.

Context {F : Type}.

Lemma valid_index_spec (n : nat) (i : Z) :
  valid_index n i = true <-> 0 <= i < Z.of_nat n.
Proof. unfold valid_index. rewrite andb_true_iff. lia. Qed.

Lemma indices_in_boundsb_sound (p : pattern F) :
  indices_in_boundsb p = true -> indices_in_bounds p.
Proof.
  unfold indices_in_boundsb, indices_in_bounds. intros Hb l i Hl Hi.
  rewrite forallb_forall in Hb. specialize (Hb l Hl).
  rewrite forallb_forall in Hb. now apply valid_index_spec, Hb.
Qed.

Lemma same_edgeb_spec (e1 e2 : list Z) :
  same_edgeb e1 e2 = true <-> same_edge e1 e2.
Proof.
  unfold same_edgeb, same_edge.
  destruct (list_eq_dec Z.eq_dec e1 e2) as [-> | Hne].
  - split; auto.
  - destruct (list_eq_dec Z.eq_dec e1 (rev e2)) as [-> | Hne'].
    + split; auto.
    + split; [discriminate | intros [? | ?]; contradiction].
Qed.

Lemma folds_disjointb_sound (p : pattern F) :
  folds_disjointb p = true -> folds_disjoint p.
Proof.
  unfold folds_disjointb, folds_disjoint. intros Hb m v Hm Hv Hsame.
  rewrite forallb_forall in Hb. specialize (Hb m Hm).
  rewrite forallb_forall in Hb. specialize (Hb v Hv).
  apply same_edgeb_spec in Hsame. rewrite Hsame in Hb. discriminate.
Qed.

Lemma on_face_edgeb_sound (fold face : list Z) :
  on_face_edgeb fold face = true -> on_face_edge fold face.
Proof.
  unfold on_face_edgeb, on_face_edge.
  destruct fold as [| a [| b [| c fold]]]; try discriminate.
  intros Hb. apply existsb_exists in Hb. destruct Hb as [[x y] [Hin Hxy]].
  exists a, b. split; [reflexivity |].
  cbn [fst snd] in Hxy. apply orb_true_iff in Hxy.
  destruct Hxy as [Hxy | Hxy]; apply andb_true_iff in Hxy;
    destruct Hxy as [Hx Hy]; apply Z.eqb_eq in Hx, Hy; subst; auto.
Qed.

Lemma folds_on_face_edgesb_sound (p : pattern F) :
  folds_on_face_edgesb p = true -> folds_on_face_edges p.
Proof.
  unfold folds_on_face_edgesb, folds_on_face_edges. intros Hb fold Hfold.
  rewrite forallb_forall in Hb. specialize (Hb fold Hfold).
  apply existsb_exists in Hb. destruct Hb as [face [Hface Hedge]].
  exists face. split; [assumption | now apply on_face_edgeb_sound].
Qed.

End Reflection.

(** ** Structure of the Yoshimura ring *)

Section YoshimuraStructure.

Context {F : Type} {ops : NumOps F}.

Variable size : F.
Variable n : Z.
Hypothesis n_pos : 0 < n.


Lemma yoshimura_ring_vertices_length :
  Z.of_nat (List.length (vertices (yoshimura_ring size n))) = 2 * n.
Proof.
  cbn [vertices yoshimura_ring].
  rewrite flat_map_pair_length, range_length. lia.
Qed.

Lemma yoshimura_ring_in_bounds :
  indices_in_bounds (yoshimura_ring size n).
Proof.
  intros l i Hl Hi. rewrite yoshimura_ring_vertices_length.
  cbn [faces mountain_folds valley_folds yoshimura_ring] in Hl.
  rewrite !in_app_iff, !in_map_iff in Hl.
  destruct Hl as [[s [<- Hs]] | [[s [<- Hs]] | [s [<- Hs]]]].
  - apply range_In in Hs.
    pose proof (Z.mod_pos_bound (s + 1) n n_pos) as Hmod.
    unfold segment_face, base, top in Hi. cbn [In] in Hi.
    destruct Hi as [<- | [<- | [<- | [<- | []]]]]; lia.
  - apply filter_In in Hs. destruct Hs as [Hs _]. apply range_In in Hs.
    unfold segment_fold, base, top in Hi. cbn [In] in Hi.
    destruct Hi as [<- | [<- | []]]; lia.
  - apply filter_In in Hs. destruct Hs as [Hs _]. apply range_In in Hs.
    unfold segment_fold, base, top in Hi. cbn [In] in Hi.
    destruct Hi as [<- | [<- | []]]; lia.
Qed.

Lemma yoshimura_ring_folds_disjoint :
  folds_disjoint (yoshimura_ring size n).
Proof.
  intros m v Hm Hv Hsame.
  cbn [mountain_folds valley_folds yoshimura_ring] in Hm, Hv.
  apply in_map_iff in Hm. destruct Hm as [i [<- Hi]].
  apply in_map_iff in Hv. destruct Hv as [j [<- Hj]].
  apply filter_In in Hi, Hj. destruct Hi as [_ Hi], Hj as [_ Hj].
  destruct Hsame as [Heq | Heq]; apply (f_equal (fun l => hd 0 l)) in Heq.
  - change (base i = base j) in Heq. unfold base in Heq.
    assert (i = j) by lia. subst j. rewrite Hi in Hj. discriminate.
  - change (base i = top j) in Heq. unfold base, top in Heq. lia.
Qed.

Lemma yoshimura_ring_folds_on_face_edges :
  folds_on_face_edges (yoshimura_ring size n).
Proof.
  intros fold Hfold.
  cbn [faces mountain_folds valley_folds yoshimura_ring] in *.
  assert (exists i, In i (range n) /\ fold = segment_fold i) as [i [Hi ->]].
  { rewrite in_app_iff, !in_map_iff in Hfold.
    destruct Hfold as [[i [<- Hi]] | [i [<- Hi]]];
      apply filter_In in Hi; exists i; tauto. }
  exists (segment_face n i). split.
  - now apply in_map.
  - exists (base i), (top i). split; [reflexivity |].
    left. cbn. now left.
Qed.

End YoshimuraStructure.

(** ** Invariants of the generated instances *)

Section Invariants.

Context {F : Type} {ops : NumOps F}.

(** Whatever the pattern, generation succeeds unless a Yoshimura ring of 0
    segments is asked for. *)
Lemma generate_ok (pt : pattern_type) (size angle : F) (n : Z) :
  (pt = Yoshimura -> n <> 0 /\ Z.abs n < float_limit) ->
  generate pt size angle n =
  Ok match pt with
     | Miura_ori => create_miura_ori size angle
     | Waterbomb => create_waterbomb size
     | Yoshimura => yoshimura_ring size n
     end.
Proof.
  intros Hn. destruct pt; cbn [generate]; try reflexivity.
  destruct (Hn eq_refl) as [Hn0 Hfit].
  now apply create_yoshimura_closed_form.
Qed.

(** C3: every generator returns an instance in which every index of a
    face, of a mountain fold and of a valley fold is a valid index into the
    vertex list (at least 0 and less than its length); for the Yoshimura
    generator this is for every segment count of at least 3 that converts
    to a float (a larger one produces no instance, see
    [create_yoshimura_overflow]). *)
Theorem generated_indices_in_bounds
  (pt : pattern_type) (size angle : F) (n : Z) :
  (pt = Yoshimura -> 3 <= n < float_limit) ->
  exists p, generate pt size angle n = Ok p /\ indices_in_bounds p.
Proof.
  intros Hn. eexists. split.
  - apply generate_ok. intros Hpt. specialize (Hn Hpt). lia.
  - destruct pt.
    + now apply indices_in_boundsb_sound.
    + now apply indices_in_boundsb_sound.
    + apply yoshimura_ring_in_bounds. specialize (Hn eq_refl). lia.
Qed.

(** C4: in every generated instance no mountain fold and valley fold are
    the same unordered pair of vertex indices (Yoshimura: for every segment
    count of at least 3 for which an instance is produced). *)
Theorem generated_folds_disjoint
  (pt : pattern_type) (size angle : F) (n : Z) :
  (pt = Yoshimura -> 3 <= n < float_limit) ->
  exists p, generate pt size angle n = Ok p /\ folds_disjoint p.
Proof.
  intros Hn. eexists. split.
  - apply generate_ok. intros Hpt. specialize (Hn Hpt). lia.
  - destruct pt.
    + now apply folds_disjointb_sound.
    + now apply folds_disjointb_sound.
    + apply yoshimura_ring_folds_disjoint.
Qed.

(** C10: in every generated instance each mountain or valley fold joins two
    indices that are consecutive entries, cyclically, of some face
    (Yoshimura: for every segment count of at least 3 for which an instance
    is produced). *)
Theorem generated_folds_on_face_edges
  (pt : pattern_type) (size angle : F) (n : Z) :
  (pt = Yoshimura -> 3 <= n < float_limit) ->
  exists p, generate pt size angle n = Ok p /\ folds_on_face_edges p.
Proof.
  intros Hn. eexists. split.
  - apply generate_ok. intros Hpt. specialize (Hn Hpt). lia.
  - destruct pt.
    + now apply folds_on_face_edgesb_sound.
    + now apply folds_on_face_edgesb_sound.
    + apply yoshimura_ring_folds_on_face_edges.
Qed.


End Invariants.

(** ** The ring of six segments *)

Section SixSegments.

Context {F : Type} {ops : NumOps F}.

Lemma six_segment_faces (size : F) :
  faces (yoshimura_ring size 6) =
  [ [0; 1; 3; 2]; [2; 3; 5; 4]; [4; 5; 7; 6];
    [6; 7; 9; 8]; [8; 9; 11; 10]; [10; 11; 1; 0] ].
Proof. reflexivity. Qed.

(** C2, as the code has it: for 6 segments the generator returns 12
    vertices and 6 faces of 4 indices each that form a closed ring, the last
    two indices of face [i] being the first two indices of face
    [(i+1) mod 6] in reverse order (the same unordered pair); the mountain
    folds are the 3 vertical edges of segments 0, 2, 4 and the valley folds
    the 3 vertical edges of segments 1, 3, 5. *)
Theorem yoshimura_six_segments (size : F) :
  exists p,
    create_yoshimura size 6 = Ok p /\
    List.length (vertices p) = 12%nat /\
    List.length (faces p) = 6%nat /\
    (forall f, In f (faces p) -> List.length f = 4%nat) /\
    (forall i, 0 <= i < 6 ->
       last_two (nth (Z.to_nat i) (faces p) []) =
       rev (first_two (nth (Z.to_nat ((i + 1) mod 6)) (faces p) []))) /\
    mountain_folds p = [segment_fold 0; segment_fold 2; segment_fold 4] /\
    valley_folds p = [segment_fold 1; segment_fold 3; segment_fold 5].
Proof.
  exists (yoshimura_ring size 6).
  split; [apply create_yoshimura_closed_form; [lia | reflexivity] |].
  split; [reflexivity |]. split; [reflexivity |].
  split; [| split; [| split; reflexivity]].
  - rewrite six_segment_faces. cbn [In].
    intros f [<- | [<- | [<- | [<- | [<- | [<- | []]]]]]]; reflexivity.
  - intros i Hi. rewrite six_segment_faces.
    assert (i = 0 \/ i = 1 \/ i = 2 \/ i = 3 \/ i = 4 \/ i = 5) as Hcases by lia.
    destruct Hcases as [-> | [-> | [-> | [-> | [-> | ->]]]]]; reflexivity.
Qed.

End SixSegments.

(** ** Concrete instances *)

Section Instances.

Import Ideal.

Local Open Scope R_scope.


(** With 6 segments the last two indices of face 0 are [3; 2] and the first
    two indices of face 1 are [2; 3]: not the same ordered pair. *)
Lemma ring_faces_reverse_shared_edge :
  exists p,
    create_yoshimura 1 6 = Ok p /\
    last_two (nth 0 (faces p) []) = [3; 2]%Z /\
    first_two (nth 1 (faces p) []) = [2; 3]%Z /\
    last_two (nth 0 (faces p) []) <> first_two (nth 1 (faces p) []).
Proof.
  exists (yoshimura_ring 1 6).
  split; [apply create_yoshimura_closed_form; [lia | reflexivity] |].
  rewrite six_segment_faces.
  split; [reflexivity |]. split; [reflexivity |]. discriminate.
Qed.

End Instances.

(** ** Positions in the Yoshimura ring *)

Section YoshimuraPositions.

Context {F : Type} {ops : NumOps F}.

Variable size : F.
Variable n : Z.

Lemma yoshimura_ring_vertices (i : Z) :
  0 <= i < n ->
  nth_error (vertices (yoshimura_ring size n)) (Z.to_nat (base i))
    = Some (base_vertex size n i) /\
  nth_error (vertices (yoshimura_ring size n)) (Z.to_nat (top i))
    = Some (top_vertex size n i).
Proof.
  intros Hi. cbn [vertices yoshimura_ring].
  replace (Z.to_nat (base i)) with (2 * Z.to_nat i)%nat by (unfold base; lia).
  replace (Z.to_nat (top i)) with (2 * Z.to_nat i + 1)%nat by (unfold top; lia).
  apply (flat_map_pair_nth_error (base_vertex size n) (top_vertex size n)).
  rewrite range_nth_error by lia. f_equal. lia.
Qed.

Lemma yoshimura_ring_face (i : Z) :
  0 <= i < n ->
  nth_error (faces (yoshimura_ring size n)) (Z.to_nat i) = Some (segment_face n i).
Proof.
  intros Hi. cbn [faces yoshimura_ring].
  rewrite nth_error_map, range_nth_error by lia.
  cbn [option_map]. do 2 f_equal. lia.
Qed.

Lemma is_even_segment_even (i : Z) : is_even_segment i = Z.even i.
Proof.
  unfold is_even_segment. rewrite Zmod_even.
  now destruct (Z.even i).
Qed.

Lemma segment_fold_inj (i j : Z) : segment_fold i = segment_fold j -> i = j.
Proof.
  intros Heq. apply (f_equal (fun l => hd 0 l)) in Heq.
  change (base i = base j) in Heq. unfold base in Heq. lia.
Qed.

Lemma yoshimura_ring_mountain (i : Z) :
  In (segment_fold i) (mountain_folds (yoshimura_ring size n)) <->
  0 <= i < n /\ Z.even i = true.
Proof.
  cbn [mountain_folds yoshimura_ring]. rewrite in_map_iff. split.
  - intros [j [Heq Hj]]. apply segment_fold_inj in Heq. subst j.
    apply filter_In in Hj. rewrite range_In, is_even_segment_even in Hj.
    exact Hj.
  - intros [Hi He]. exists i. split; [reflexivity |].
    apply filter_In. now rewrite range_In, is_even_segment_even.
Qed.

Lemma yoshimura_ring_valley (i : Z) :
  In (segment_fold i) (valley_folds (yoshimura_ring size n)) <->
  0 <= i < n /\ Z.odd i = true.
Proof.
  cbn [valley_folds yoshimura_ring]. rewrite in_map_iff.
  rewrite <- Z.negb_even. split.
  - intros [j [Heq Hj]]. apply segment_fold_inj in Heq. subst j.
    apply filter_In in Hj. rewrite range_In, is_even_segment_even in Hj.
    exact Hj.
  - intros [Hi He]. exists i. split; [reflexivity |].
    apply filter_In. now rewrite range_In, is_even_segment_even.
Qed.

End YoshimuraPositions.

(** ** Geometry of the unit cells, in real arithmetic *)

Section Geometry.

Import Ideal.

Local Open Scope R_scope.

(** C5: for every size > 0 and angle the Miura-ori generator returns the six
    vertices v0 .. v5 of the two parallelograms, with a = b = size and theta
    the angle in radians, the faces [0,1,2,3] and [1,4,5,2], the mountain
    fold {1,2} and the valley folds {0,1}, {2,3}, {1,4}, {2,5}; for size 1.0
    and 45 degrees vertex 1 is (cos 45, 0, sin 45). *)
Theorem miura_ori_unit_cell (size angle : R) :
  0 < size ->
  (let theta := angle * (PI / 180) in
   let a := size in
   let b := size in
   create_miura_ori size angle =
   mkPattern
     [ (0, 0, 0);
       (a * cos theta, 0, a * sin theta);
       (a * cos theta, b, a * sin theta);
       (0, b, 0);
       (2 * a * cos theta, 0, 0);
       (2 * a * cos theta, b, 0) ]
     [ [0; 1; 2; 3]; [1; 4; 5; 2] ]%Z
     [ [1; 2] ]%Z
     [ [0; 1]; [2; 3]; [1; 4]; [2; 5] ]%Z) /\
  nth_error (vertices (create_miura_ori 1 45)) 1
    = Some (cos (PI / 4), 0, sin (PI / 4)).
Proof.
  intros _. split; [reflexivity |].
  cbn [vertices create_miura_ori nth_error].
  cbn [of_int fmul fdiv fneg np_cos np_sin np_pi np_radians RealOps].
  replace (45 * (PI / 180)) with (PI / 4) by field.
  now rewrite !Rmult_1_l.
Qed.

(** Angles of the six outer Waterbomb vertices. *)
Lemma hexagon_angles :
  cos (2 * (PI / 3)) = - cos (PI / 3) /\ sin (2 * (PI / 3)) = sin (PI / 3) /\
  cos (3 * (PI / 3)) = - 1 /\ sin (3 * (PI / 3)) = 0 /\
  cos (4 * (PI / 3)) = - cos (PI / 3) /\ sin (4 * (PI / 3)) = - sin (PI / 3) /\
  cos (5 * (PI / 3)) = cos (PI / 3) /\ sin (5 * (PI / 3)) = - sin (PI / 3).
Proof.
  replace (3 * (PI / 3)) with PI by field.
  replace (4 * (PI / 3)) with (PI / 3 + PI) by field.
  replace (5 * (PI / 3)) with (2 * (PI / 3) + PI) by field.
  rewrite !neg_cos, !neg_sin, cos_PI, sin_PI.
  rewrite cos_2PI3, sin_2PI3, cos_PI3, sin_PI3.
  repeat split; lra.
Qed.

(** C6: for every size > 0 the Waterbomb generator returns 7 vertices, the
    center at the origin and 6 vertices at multiples of 60 degrees on the
    circle of radius size in the plane z = 0, the 6 triangles
    {center, vertex i, vertex i+1} closing from vertex 6 to vertex 1, the
    spokes to vertices 2, 4, 6 as mountain folds and the spokes to vertices
    1, 3, 5 as valley folds; for size 1.0 vertex 1 is (1,0,0) and vertex 2
    is (cos 60, sin 60, 0). *)
Theorem waterbomb_unit_cell (size : R) :
  0 < size ->
  (let p := create_waterbomb size in
   List.length (vertices p) = 7%nat /\
   nth_error (vertices p) 0 = Some (0, 0, 0) /\
   (forall k : nat, (k < 6)%nat ->
      nth_error (vertices p) (S k)
        = Some (size * cos (INR k * (PI / 3)), size * sin (INR k * (PI / 3)), 0)) /\
   List.length (faces p) = 6%nat /\
   (forall k : nat, (k < 6)%nat ->
      nth_error (faces p) k
        = Some [0; Z.of_nat k + 1; (Z.of_nat k + 1) mod 6 + 1]%Z) /\
   mountain_folds p = [ [0; 2]; [0; 4]; [0; 6] ]%Z /\
   valley_folds p = [ [0; 1]; [0; 3]; [0; 5] ]%Z) /\
  nth_error (vertices (create_waterbomb 1)) 1 = Some (1, 0, 0) /\
  nth_error (vertices (create_waterbomb 1)) 2
    = Some (cos (PI / 3), sin (PI / 3), 0).
Proof.
  intros _.
  destruct hexagon_angles as (C2 & S2 & C3 & S3 & C4 & S4 & C5 & S5).
  split; [| split].
  - cbv zeta. split; [reflexivity |]. split; [reflexivity |].
    split; [| split; [reflexivity | split; [| split; reflexivity]]].
    + intros k Hk.
      cbn [vertices create_waterbomb].
      cbn [of_int fmul fdiv fneg np_cos np_sin np_pi RealOps].
      destruct k as [| [| [| [| [| [| k]]]]]]; try lia;
        cbn [nth_error]; simpl INR; do 2 f_equal.
      * rewrite Rmult_0_l, cos_0, sin_0. f_equal; lra.
      * rewrite Rmult_1_l. reflexivity.
      * replace (1 + 1) with 2 by lra. rewrite C2, S2. f_equal; lra.
      * replace (1 + 1 + 1) with 3 by lra. rewrite C3, S3. f_equal; lra.
      * replace (1 + 1 + 1 + 1) with 4 by lra. rewrite C4, S4. f_equal; lra.
      * replace (1 + 1 + 1 + 1 + 1) with 5 by lra. rewrite C5, S5. f_equal; lra.
    + intros k Hk.
      destruct k as [| [| [| [| [| [| k]]]]]]; try lia; reflexivity.
  - reflexivity.
  - cbn [vertices create_waterbomb nth_error].
    cbn [of_int fmul fdiv fneg np_cos np_sin np_pi RealOps].
    now rewrite !Rmult_1_l.
Qed.

(** C7: for every size > 0 and segment count n >= 3 the Yoshimura generator
    places, for each segment i, the base vertex 2i at angle i (2 pi / n),
    radius size, height 0 and the top vertex 2i+1 at the same angle and
    radius, height size / 2; makes one face per segment, on base i, top i,
    top (i+1 mod n), base (i+1 mod n); and puts the vertical edge
    {base i, top i} among the mountain folds, and not the valley folds,
    when i is even, among the valley folds, and not the mountain folds, when
    i is odd.  The segment counts are those that convert to a float; a
    larger one produces no instance. *)
Theorem yoshimura_unit_cell (size : R) (n : Z) :
  0 < size ->
  (3 <= n < float_limit)%Z ->
  exists p,
    create_yoshimura size n = Ok p /\
    Z.of_nat (List.length (vertices p)) = (2 * n)%Z /\
    Z.of_nat (List.length (faces p)) = n /\
    (forall i : Z, (0 <= i < n)%Z ->
       let theta := IZR i * (2 * PI / IZR n) in
       nth_error (vertices p) (Z.to_nat (2 * i))
         = Some (size * cos theta, size * sin theta, 0) /\
       nth_error (vertices p) (Z.to_nat (2 * i + 1))
         = Some (size * cos theta, size * sin theta, size / 2) /\
       nth_error (faces p) (Z.to_nat i)
         = Some [2 * i; 2 * i + 1;
                 2 * ((i + 1) mod n) + 1; 2 * ((i + 1) mod n)]%Z /\
       (Z.even i = true ->
          In [2 * i; 2 * i + 1]%Z (mountain_folds p) /\
          ~ In [2 * i; 2 * i + 1]%Z (valley_folds p)) /\
       (Z.odd i = true ->
          In [2 * i; 2 * i + 1]%Z (valley_folds p) /\
          ~ In [2 * i; 2 * i + 1]%Z (mountain_folds p))) /\
    (forall e, In e (mountain_folds p ++ valley_folds p) ->
       exists i : Z, (0 <= i < n)%Z /\ e = [2 * i; 2 * i + 1]%Z).
Proof.
  intros _ Hn. exists (yoshimura_ring size n).
  split; [apply create_yoshimura_closed_form; lia |].
  split; [apply yoshimura_ring_vertices_length; lia |].
  split; [cbn [faces yoshimura_ring]; rewrite length_map, range_length; lia |].
  split.
  - intros i Hi theta.
    destruct (yoshimura_ring_vertices size n i Hi) as [Hb Ht].
    split; [exact Hb |]. split; [exact Ht |].
    split; [exact (yoshimura_ring_face size n i Hi) |].
    change [2 * i; 2 * i + 1]%Z with (segment_fold i).
    rewrite yoshimura_ring_mountain, yoshimura_ring_valley.
    split; intros Hpar.
    + split; [tauto |]. intros [_ Hodd].
      rewrite <- Z.negb_even, Hpar in Hodd. discriminate.
    + split; [tauto |]. intros [_ Heven].
      rewrite <- Z.negb_even, Heven in Hpar. discriminate.
  - intros e He. cbn [mountain_folds valley_folds yoshimura_ring] in He.
    rewrite in_app_iff, !in_map_iff in He.
    destruct He as [[i [<- Hi]] | [i [<- Hi]]];
      apply filter_In in Hi; destruct Hi as [Hi _]; apply range_In in Hi;
      exists i; split; try assumption; reflexivity.
Qed.

End Geometry.

(** ** The renderer *)

Section RendererProofs.

Context {F : Type}.

Lemma np_row_in_range {A : Type} (vs : list A) (i : Z) :
  0 <= i < len vs ->
  exists v, np_row vs i = Ok v /\ nth_error vs (Z.to_nat i) = Some v.
Proof.
  unfold np_row, len. intros Hi.
  destruct (Z.ltb_spec i 0) as [Hneg | _]; [lia |].
  destruct (Z.leb_spec 0 i) as [_ | Hneg]; [| lia].
  destruct (Z.ltb_spec i (Z.of_nat (List.length vs))) as [_ | Hbig]; [| lia].
  cbn [andb].
  destruct (nth_error vs (Z.to_nat i)) as [v |] eqn:Hnth.
  - exists v. now split.
  - apply nth_error_None in Hnth. lia.
Qed.

Lemma np_take_in_range (verts : list (vertex F)) (idx : list Z) :
  (forall i, In i idx -> 0 <= i < len verts) ->
  exists rows, np_take verts idx = Ok rows /\ rows_of verts idx rows.
Proof.
  induction idx as [| i idx IH]; intros Hidx.
  - exists []. split; [reflexivity | constructor].
  - destruct (np_row_in_range verts i) as [v [Hrow Hv]].
    { apply Hidx. now left. }
    destruct IH as [rows [Htake Hrows]].
    { intros j Hj. apply Hidx. now right. }
    exists (v :: rows). split.
    + cbn [np_take]. rewrite Hrow. cbn [bind]. rewrite Htake. reflexivity.
    + now constructor.
Qed.

(** The index lists of a mesh trace are the fan of the face. *)
Lemma fan_indices (m s : nat) :
  combine (combine (repeat 0 m)
                   (map (fun k => 1 + k) (map Z.of_nat (seq s m))))
          (map (fun k => 2 + k) (map Z.of_nat (seq s m)))
  = map (fun k => (0, Z.of_nat k, Z.of_nat k + 1)) (seq (S s) m).
Proof.
  revert s. induction m as [| m IH]; intros s; [reflexivity |].
  cbn [repeat seq map combine]. rewrite IH. f_equal.
  replace (1 + Z.of_nat s) with (Z.of_nat (S s)) by lia.
  replace (2 + Z.of_nat s) with (Z.of_nat (S s) + 1) by lia.
  reflexivity.
Qed.

Lemma face_mesh_triangles (rows : list (vertex F)) (face : list Z) (cs : string) :
  triangles (face_mesh rows face cs) = fan_triangles (List.length face).
Proof.
  unfold face_mesh, triangles, fan_triangles, range2, range, len.
  replace (Z.of_nat (List.length face) - 1 - 1)
    with (Z.of_nat (List.length face) - 2) by lia.
  replace (Z.to_nat (Z.of_nat (List.length face) - 2))
    with (List.length face - 2)%nat by lia.
  apply fan_indices.
Qed.

Lemma plot_face_surface (verts : list (vertex F)) (cs : string)
  (fig : figure F) (face : list Z) :
  face <> [] ->
  (forall i, In i face -> 0 <= i < len verts) ->
  exists t, plot_face verts cs fig face = Ok (add_trace fig t) /\
            fan_surface verts cs face t.
Proof.
  intros Hne Hidx.
  destruct (np_take_in_range verts face Hidx) as [rows [Htake Hrows]].
  exists (face_mesh rows face cs). split.
  - unfold plot_face. rewrite Htake. cbn [bind].
    destruct (np_row_in_range rows 0) as [v0 [Hrow _]].
    { unfold len. rewrite <- (Forall2_length Hrows).
      destruct face; [contradiction | cbn [List.length]; lia]. }
    rewrite Hrow. reflexivity.
  - exists rows. do 3 eexists. split; [exact Hrows |].
    split; [reflexivity |]. apply (face_mesh_triangles rows face cs).
Qed.

Lemma plot_fold_line (verts : list (vertex F)) (line : line_style)
  (name : string) (fig : figure F) (fold : list Z) :
  List.length fold = 2%nat ->
  (forall i, In i fold -> 0 <= i < len verts) ->
  exists t, plot_fold verts line name fig fold = Ok (add_trace fig t) /\
            is_mesh t = false.
Proof.
  intros Hlen Hidx.
  destruct fold as [| a [| b [| c fold]]]; try discriminate.
  destruct (np_row_in_range verts a) as [p0 [Hp0 _]].
  { apply Hidx. now left. }
  destruct (np_row_in_range verts b) as [p1 [Hp1 _]].
  { apply Hidx. right. now left. }
  exists (fold_line p0 p1 line name). split; [| reflexivity].
  unfold plot_fold.
  change (np_row [a; b] 0) with (Ok a). cbn [bind]. rewrite Hp0. cbn [bind].
  change (np_row [a; b] 1) with (Ok b). cbn [bind]. rewrite Hp1. reflexivity.
Qed.

(** A loop whose body adds one trace per element adds them in order. *)
Lemma for_each_add_traces {A : Type}
  (body : figure F -> A -> result (figure F)) (P : A -> trace F -> Prop)
  (xs : list A) :
  (forall x, In x xs ->
     forall fig, exists t, body fig x = Ok (add_trace fig t) /\ P x t) ->
  forall fig, exists ts,
    for_each xs body fig = Ok (mkFigure (data fig ++ ts) (fig_layout fig)) /\
    Forall2 P xs ts.
Proof.
  induction xs as [| x xs IH]; intros Hbody fig.
  - exists []. split; [| constructor].
    cbn [for_each]. rewrite app_nil_r. now destruct fig.
  - destruct (Hbody x (or_introl eq_refl) fig) as [t [Ht HP]].
    destruct (IH (fun y Hy => Hbody y (or_intror Hy)) (add_trace fig t))
      as [ts [Hts HPs]].
    exists (t :: ts). split; [| now constructor].
    cbn [for_each]. rewrite Ht. cbn [bind]. rewrite Hts.
    unfold add_trace. cbn [data fig_layout]. now rewrite <- app_assoc.
Qed.

Lemma well_formedb_sound (p : pattern F) :
  well_formedb p = true -> well_formed p.
Proof.
  unfold well_formedb, well_formed. rewrite !andb_true_iff.
  intros [[Hb Hf] He]. split; [| split].
  - now apply indices_in_boundsb_sound.
  - intros f Hin. rewrite forallb_forall in Hf.
    apply Nat.leb_le. now apply Hf.
  - intros e Hin. rewrite forallb_forall in He.
    apply Nat.eqb_eq. now apply He.
Qed.

(** C8: for every well-formed pattern instance and every colour scheme of
    the select box the renderer returns a figure whose traces are, first,
    one surface per face, in the order of the faces, each a mesh on the
    vertices of its face with the triangles (0, k, k+1), k = 1 .. len-2,
    opacity 0.7 and the requested colour scheme, and then only line traces. *)
Theorem faces_rendered_as_fans (p : pattern F) (colorscale : string) :
  well_formed p ->
  In colorscale color_schemes ->
  exists fig surfaces lines,
    plot_origami_lattice (vertices p) (faces p) (mountain_folds p)
                         (valley_folds p) colorscale = Ok fig /\
    data fig = surfaces ++ lines /\
    Forall2 (fan_surface (vertices p) colorscale) (faces p) surfaces /\
    Forall (fun t => is_mesh t = false) lines.
Proof.
  intros (Hbounds & Hfaces & Hfolds) _.
  assert (Hidx : forall l, In l (faces p ++ mountain_folds p ++ valley_folds p) ->
                 forall i, In i l -> 0 <= i < len (vertices p)).
  { intros l Hl i Hi. exact (Hbounds l i Hl Hi). }
  destruct (for_each_add_traces (plot_face (vertices p) colorscale)
              (fan_surface (vertices p) colorscale) (faces p))
    with (fig := mkFigure (F:=F) [] None) as [surfaces [Hs HPs]].
  { intros f Hf fig. apply plot_face_surface.
    - specialize (Hfaces f Hf). destruct f; [cbn in Hfaces; lia | discriminate].
    - apply Hidx. apply in_app_iff. now left. }
  destruct (for_each_add_traces
              (plot_fold (vertices p) mountain_line "Mountain fold")
              (fun _ t => is_mesh t = false) (mountain_folds p))
    with (fig := mkFigure ([] ++ surfaces) None) as [ms [Hm HPm]].
  { intros e He fig. apply plot_fold_line.
    - apply Hfolds. apply in_app_iff. now left.
    - apply Hidx. rewrite !in_app_iff. right. now left. }
  destruct (for_each_add_traces
              (plot_fold (vertices p) valley_line "Valley fold")
              (fun _ t => is_mesh t = false) (valley_folds p))
    with (fig := mkFigure (([] ++ surfaces) ++ ms) None) as [vs [Hv HPv]].
  { intros e He fig. apply plot_fold_line.
    - apply Hfolds. apply in_app_iff. now right.
    - apply Hidx. rewrite !in_app_iff. right. now right. }
  cbn [data fig_layout] in Hs, Hm, Hv.
  eexists. exists surfaces, (ms ++ vs). split.
  - unfold plot_origami_lattice. rewrite Hs. cbn [bind].
    rewrite Hm. cbn [bind]. rewrite Hv. cbn [bind data]. reflexivity.
  - split; [cbn [data app]; now rewrite app_assoc |]. split; [exact HPs |].
    apply Forall_app. split.
    + clear -HPm. induction HPm; constructor; assumption.
    + clear -HPv. induction HPv; constructor; assumption.
Qed.

End RendererProofs.

(** ** Generated instances can be rendered *)

Section Rendering.

Context {F : Type} {ops : NumOps F}.

Lemma yoshimura_ring_well_formed (size : F) (n : Z) :
  0 < n -> well_formed (yoshimura_ring size n).
Proof.
  intros Hn. split; [now apply yoshimura_ring_in_bounds |]. split.
  - intros f Hf. cbn [faces yoshimura_ring] in Hf.
    apply in_map_iff in Hf. destruct Hf as [i [<- _]]. cbn. lia.
  - intros e He. cbn [mountain_folds valley_folds yoshimura_ring] in He.
    rewrite in_app_iff, !in_map_iff in He.
    destruct He as [[i [<- _]] | [i [<- _]]]; reflexivity.
Qed.

Lemma generated_well_formed (pt : pattern_type) (size angle : F) (n : Z) :
  (pt = Yoshimura -> 0 < n < float_limit) ->
  exists p, generate pt size angle n = Ok p /\ well_formed p.
Proof.
  intros Hn. eexists. split.
  - apply generate_ok. intros Hpt. specialize (Hn Hpt). lia.
  - destruct pt.
    + now apply well_formedb_sound.
    + now apply well_formedb_sound.
    + apply yoshimura_ring_well_formed. now apply Hn.
Qed.

End Rendering.

(** ** The theorems at concrete parameters *)

Section Witnesses.

Import Ideal.

Local Open Scope R_scope.

Lemma six_segments_convert : (3 <= 6 < float_limit)%Z.
Proof. split; [discriminate | reflexivity]. Defined.


Lemma generated_indices_in_bounds_witness :
  (Yoshimura = Yoshimura -> (3 <= 6 < float_limit)%Z) /\
  exists p, generate Yoshimura 1 45 6 = Ok p /\ indices_in_bounds p.
Proof.
  split; [intros _; exact six_segments_convert |].
  apply (generated_indices_in_bounds Yoshimura 1 45 6). intros _. exact six_segments_convert.
Defined.

Lemma generated_folds_disjoint_witness :
  (Yoshimura = Yoshimura -> (3 <= 6 < float_limit)%Z) /\
  exists p, generate Yoshimura 1 45 6 = Ok p /\ folds_disjoint p.
Proof.
  split; [intros _; exact six_segments_convert |].
  apply (generated_folds_disjoint Yoshimura 1 45 6). intros _. exact six_segments_convert.
Defined.

Lemma generated_folds_on_face_edges_witness :
  (Yoshimura = Yoshimura -> (3 <= 6 < float_limit)%Z) /\
  exists p, generate Yoshimura 1 45 6 = Ok p /\ folds_on_face_edges p.
Proof.
  split; [intros _; exact six_segments_convert |].
  apply (generated_folds_on_face_edges Yoshimura 1 45 6). intros _. exact six_segments_convert.
Defined.

Lemma miura_ori_unit_cell_witness :
  0 < 1 /\
  nth_error (vertices (create_miura_ori 1 45)) 1
    = Some (cos (PI / 4), 0, sin (PI / 4)).
Proof.
  split; [exact Rlt_0_1 |].
  exact (proj2 (miura_ori_unit_cell 1 45 Rlt_0_1)).
Defined.

Lemma waterbomb_unit_cell_witness :
  0 < 1 /\
  nth_error (vertices (create_waterbomb 1)) 2
    = Some (cos (PI / 3), sin (PI / 3), 0).
Proof.
  split; [exact Rlt_0_1 |].
  exact (proj2 (proj2 (waterbomb_unit_cell 1 Rlt_0_1))).
Defined.

Lemma yoshimura_unit_cell_witness :
  0 < 1 /\ (3 <= 6 < float_limit)%Z /\
  exists p,
    create_yoshimura 1 6 = Ok p /\
    Z.of_nat (List.length (vertices p)) = 12%Z /\
    Z.of_nat (List.length (faces p)) = 6%Z.
Proof.
  split; [exact Rlt_0_1 |]. split; [exact six_segments_convert |].
  destruct (yoshimura_unit_cell 1 6 Rlt_0_1 six_segments_convert)
    as [p (Hp & Hv & Hf & _)].
  exists p. repeat split; assumption.
Defined.

Lemma faces_rendered_as_fans_witness :
  well_formed (create_miura_ori 1 45) /\
  In "Viridis"%string color_schemes /\
  exists fig surfaces lines,
    plot_origami_lattice (vertices (create_miura_ori 1 45))
      (faces (create_miura_ori 1 45)) (mountain_folds (create_miura_ori 1 45))
      (valley_folds (create_miura_ori 1 45)) "Viridis" = Ok fig /\
    data fig = surfaces ++ lines /\
    Forall2 (fan_surface (vertices (create_miura_ori 1 45)) "Viridis")
            (faces (create_miura_ori 1 45)) surfaces /\
    Forall (fun t => is_mesh t = false) lines.
Proof.
  assert (Hwf : well_formed (create_miura_ori 1 45))
    by (apply well_formedb_sound; reflexivity).
  assert (Hcs : In "Viridis"%string color_schemes) by (left; reflexivity).
  split; [exact Hwf |]. split; [exact Hcs |].
  exact (faces_rendered_as_fans (create_miura_ori 1 45) "Viridis" Hwf Hcs).
Defined.

End Witnesses.

(** ** Outcome of the renderer *)

Section RendererOutcome.

Context {F : Type}.

Lemma np_row_outcome {A : Type} (vs : list A) (i : Z) :
  match np_row vs i with
  | Ok v => np_valid (len vs) i = true /\
            nth_error vs (Z.to_nat (np_norm (len vs) i)) = Some v
  | Raise e => np_valid (len vs) i = false /\ e = IndexError
  end.
Proof.
  unfold np_row, np_valid, np_norm.
  destruct (Z.ltb_spec i 0) as [Hneg | Hpos].
  - destruct (Z.leb_spec 0 (len vs + i)) as [H0 | H0];
      destruct (Z.ltb_spec (len vs + i) (len vs)) as [H1 | H1];
      destruct (Z.leb_spec (- len vs) i) as [H2 | H2];
      destruct (Z.ltb_spec i (len vs)) as [H3 | H3];
      cbn [andb]; try lia; try (split; reflexivity).
    destruct (nth_error vs (Z.to_nat (len vs + i))) as [v |] eqn:Hnth.
    + now split.
    + apply nth_error_None in Hnth. unfold len in *. lia.
  - destruct (Z.leb_spec 0 i) as [H0 | H0];
      destruct (Z.ltb_spec i (len vs)) as [H1 | H1];
      destruct (Z.leb_spec (- len vs) i) as [H2 | H2];
      cbn [andb]; try lia; try (split; reflexivity).
    destruct (nth_error vs (Z.to_nat i)) as [v |] eqn:Hnth.
    + now split.
    + apply nth_error_None in Hnth. unfold len in *. lia.
Qed.

Lemma np_row_head {A : Type} (a : A) (l : list A) : np_row (a :: l) 0 = Ok a.
Proof.
  pose proof (np_row_outcome (a :: l) 0) as H.
  destruct (np_row (a :: l) 0) as [v | e].
  - destruct H as [_ H]. cbn in H. now injection H as ->.
  - destruct H as [H _]. unfold np_valid, len in H. cbn [List.length] in H.
    apply andb_false_iff in H. destruct H as [H | H];
      [apply Z.leb_gt in H | apply Z.ltb_ge in H]; lia.
Qed.

Lemma np_row_second {A : Type} (a b : A) (l : list A) :
  np_row (a :: b :: l) 1 = Ok b.
Proof.
  pose proof (np_row_outcome (a :: b :: l) 1) as H.
  destruct (np_row (a :: b :: l) 1) as [v | e].
  - destruct H as [_ H]. cbn in H. now injection H as ->.
  - destruct H as [H _]. unfold np_valid, len in H. cbn [List.length] in H.
    apply andb_false_iff in H. destruct H as [H | H];
      [apply Z.leb_gt in H | apply Z.ltb_ge in H]; lia.
Qed.

Lemma np_row_short {A : Type} (l : list A) (i : Z) :
  len l <= i -> np_row l i = Raise IndexError.
Proof.
  intros Hi. pose proof (np_row_outcome l i) as H.
  destruct (np_row l i) as [v | e].
  - destruct H as [H _]. unfold np_valid in H.
    apply andb_true_iff in H. destruct H as [_ H]. apply Z.ltb_lt in H. lia.
  - destruct H as [_ ->]. reflexivity.
Qed.

Lemma np_take_outcome (verts : list (vertex F)) (idx : list Z) :
  match np_take verts idx with
  | Ok rows =>
      forallb (np_valid (len verts)) idx = true /\
      Forall2 (fun i v => nth_error verts (Z.to_nat (np_norm (len verts) i)) = Some v)
              idx rows
  | Raise e => forallb (np_valid (len verts)) idx = false /\ e = IndexError
  end.
Proof.
  induction idx as [| i idx IH]; cbn [np_take forallb].
  - split; [reflexivity | constructor].
  - pose proof (np_row_outcome verts i) as Hrow.
    destruct (np_row verts i) as [v | e]; cbn [bind].
    + destruct Hrow as [-> Hv]. cbn [andb].
      destruct (np_take verts idx) as [rows | e]; cbn [bind].
      * destruct IH as [-> Hrows]. split; [reflexivity | now constructor].
      * exact IH.
    + destruct Hrow as [-> ->]. now split.
Qed.

Lemma face_trace_outcome (verts : list (vertex F)) (cs : string) (face : list Z) :
  match face_trace verts cs face with
  | Ok t =>
      face_renderable verts face = true /\
      exists rows,
        Forall2 (fun i v => nth_error verts (Z.to_nat (np_norm (len verts) i)) = Some v)
                face rows /\
        t = face_mesh rows face cs
  | Raise e => face_renderable verts face = false /\ e = IndexError
  end.
Proof.
  unfold face_trace, face_renderable.
  pose proof (np_take_outcome verts face) as Htake.
  destruct (np_take verts face) as [rows | e]; cbn [bind].
  - destruct Htake as [Hvalid Hrows].
    destruct Hrows as [| i v face rows Hv Hrows].
    + now rewrite np_row_short by (cbn; lia).
    + rewrite np_row_head. cbn [bind]. split; [exact Hvalid |].
      exists (v :: rows). split; [now constructor | reflexivity].
  - destruct Htake as [Hvalid ->]. destruct face; now split.
Qed.

Lemma fold_trace_outcome (verts : list (vertex F)) (line : line_style)
  (name : string) (fold : list Z) :
  match fold_trace verts line name fold with
  | Ok t => fold_renderable verts fold = true /\
            fold_segment verts line name fold t
  | Raise e => fold_renderable verts fold = false /\ e = IndexError
  end.
Proof.
  unfold fold_trace, fold_renderable.
  destruct fold as [| a [| b rest]].
  - now rewrite np_row_short by (cbn; lia).
  - rewrite np_row_head. cbn [bind].
    pose proof (np_row_outcome verts a) as Ha.
    destruct (np_row verts a) as [p0 | e]; cbn [bind].
    + now rewrite np_row_short by (cbn; lia).
    + now destruct Ha as [_ ->].
  - rewrite np_row_head. cbn [bind].
    pose proof (np_row_outcome verts a) as Ha.
    destruct (np_row verts a) as [p0 | e]; cbn [bind].
    + destruct Ha as [-> Hp0]. rewrite np_row_second. cbn [bind andb].
      pose proof (np_row_outcome verts b) as Hb.
      destruct (np_row verts b) as [p1 | e]; cbn [bind].
      * destruct Hb as [-> Hp1]. split; [reflexivity |].
        exists a, b, rest, p0, p1. repeat split; assumption.
      * exact Hb.
    + destruct Ha as [-> ->]. now split.
Qed.

Lemma plot_face_trace (verts : list (vertex F)) (cs : string)
  (fig : figure F) (face : list Z) :
  plot_face verts cs fig face =
  bind (face_trace verts cs face) (fun t => Ok (add_trace fig t)).
Proof.
  unfold plot_face, face_trace.
  destruct (np_take verts face) as [rows | e]; cbn [bind]; [| reflexivity].
  destruct (np_row rows 0) as [v0 | e]; reflexivity.
Qed.

Lemma plot_fold_trace (verts : list (vertex F)) (line : line_style)
  (name : string) (fig : figure F) (fold : list Z) :
  plot_fold verts line name fig fold =
  bind (fold_trace verts line name fold) (fun t => Ok (add_trace fig t)).
Proof.
  unfold plot_fold, fold_trace.
  destruct (np_row fold 0) as [f0 | e]; cbn [bind]; [| reflexivity].
  destruct (np_row verts f0) as [p0 | e]; cbn [bind]; [| reflexivity].
  destruct (np_row fold 1) as [f1 | e]; cbn [bind]; [| reflexivity].
  destruct (np_row verts f1) as [p1 | e]; reflexivity.
Qed.

(** A loop that adds one trace per element adds the traces of the elements
    in order, or stops at the first exception. *)
Lemma for_each_traverse {A : Type}
  (body : figure F -> A -> result (figure F)) (f : A -> result (trace F)) :
  (forall fig x, body fig x = bind (f x) (fun t => Ok (add_trace fig t))) ->
  forall xs fig,
    for_each xs body fig =
    bind (traverse f xs)
         (fun ts => Ok (mkFigure (data fig ++ ts) (fig_layout fig))).
Proof.
  intros Hbody xs. induction xs as [| x xs IH]; intros fig.
  - cbn. rewrite app_nil_r. now destruct fig.
  - cbn [for_each traverse]. rewrite Hbody.
    destruct (f x) as [t | e]; cbn [bind]; [| reflexivity].
    rewrite IH. destruct (traverse f xs) as [ts | e]; cbn [bind]; [| reflexivity].
    unfold add_trace. cbn [data fig_layout]. now rewrite <- app_assoc.
Qed.

Lemma traverse_outcome {A B : Type} (f : A -> result B) (okb : A -> bool)
  (P : A -> B -> Prop) :
  (forall x, match f x with
             | Ok y => okb x = true /\ P x y
             | Raise e => okb x = false /\ e = IndexError
             end) ->
  forall xs,
    match traverse f xs with
    | Ok ys => forallb okb xs = true /\ Forall2 P xs ys
    | Raise e => forallb okb xs = false /\ e = IndexError
    end.
Proof.
  intros Hf xs. induction xs as [| x xs IH]; cbn [traverse forallb].
  - split; [reflexivity | constructor].
  - specialize (Hf x). destruct (f x) as [y | e]; cbn [bind].
    + destruct Hf as [-> HP]. cbn [andb].
      destruct (traverse f xs) as [ys | e]; cbn [bind].
      * destruct IH as [-> HPs]. split; [reflexivity | now constructor].
      * exact IH.
    + destruct Hf as [-> ->]. now split.
Qed.

(** The renderer as three traversals. *)
Lemma plot_as_traces (verts : list (vertex F))
  (fcs mountain valley : list (list Z)) (cs : string) :
  plot_origami_lattice verts fcs mountain valley cs =
  bind (traverse (face_trace verts cs) fcs) (fun ts1 =>
  bind (traverse (fold_trace verts mountain_line "Mountain fold") mountain) (fun ts2 =>
  bind (traverse (fold_trace verts valley_line "Valley fold") valley) (fun ts3 =>
  Ok (mkFigure (ts1 ++ ts2 ++ ts3) (Some scene_layout))))).
Proof.
  unfold plot_origami_lattice.
  rewrite (for_each_traverse _ _ (plot_face_trace verts cs)).
  destruct (traverse (face_trace verts cs) fcs) as [ts1 | e];
    cbn [bind]; [| reflexivity].
  rewrite (for_each_traverse _ _ (plot_fold_trace verts mountain_line "Mountain fold")).
  destruct (traverse (fold_trace verts mountain_line "Mountain fold") mountain)
    as [ts2 | e]; cbn [bind]; [| reflexivity].
  rewrite (for_each_traverse _ _ (plot_fold_trace verts valley_line "Valley fold")).
  destruct (traverse (fold_trace verts valley_line "Valley fold") valley)
    as [ts3 | e]; cbn [bind]; [| reflexivity].
  cbn [data fig_layout app]. now rewrite <- app_assoc.
Qed.

End RendererOutcome.

Section RendererResults.

Context {F : Type}.

Lemma range2_In (a b e : Z) : In e (range2 a b) <-> a <= e < b.
Proof.
  unfold range2. rewrite in_map_iff. split.
  - intros [k [<- Hk]]. apply range_In in Hk. lia.
  - intros He. exists (e - a). split; [lia | apply range_In; lia].
Qed.

Lemma range2_length (a b : Z) : List.length (range2 a b) = Z.to_nat (b - a).
Proof. unfold range2. now rewrite length_map, range_length. Qed.

Lemma plot_outcome (verts : list (vertex F))
  (fcs mountain valley : list (list Z)) (cs : string) :
  match plot_origami_lattice verts fcs mountain valley cs with
  | Ok fig =>
      renderable verts fcs mountain valley = true /\
      exists ts1 ts2 ts3,
        fig = mkFigure (ts1 ++ ts2 ++ ts3) (Some scene_layout) /\
        Forall2 (fun face t => exists rows,
                   Forall2 (fun i v => nth_error verts
                                         (Z.to_nat (np_norm (len verts) i)) = Some v)
                           face rows /\
                   t = face_mesh rows face cs) fcs ts1 /\
        Forall2 (fold_segment verts mountain_line "Mountain fold") mountain ts2 /\
        Forall2 (fold_segment verts valley_line "Valley fold") valley ts3
  | Raise e => renderable verts fcs mountain valley = false /\ e = IndexError
  end.
Proof.
  rewrite plot_as_traces. unfold renderable.
  pose proof (traverse_outcome _ _ _ (face_trace_outcome verts cs) fcs) as H1.
  destruct (traverse (face_trace verts cs) fcs) as [ts1 | e]; cbn [bind].
  2: { destruct H1 as [-> ->]. now split. }
  destruct H1 as [-> H1]. cbn [andb].
  pose proof (traverse_outcome _ _ _
                (fold_trace_outcome verts mountain_line "Mountain fold") mountain)
    as H2.
  destruct (traverse (fold_trace verts mountain_line "Mountain fold") mountain)
    as [ts2 | e]; cbn [bind].
  2: { destruct H2 as [-> ->]. now split. }
  destruct H2 as [-> H2]. cbn [andb].
  pose proof (traverse_outcome _ _ _
                (fold_trace_outcome verts valley_line "Valley fold") valley)
    as H3.
  destruct (traverse (fold_trace verts valley_line "Valley fold") valley)
    as [ts3 | e]; cbn [bind].
  2: { destruct H3 as [-> ->]. now split. }
  destruct H3 as [-> H3]. split; [reflexivity |].
  exists ts1, ts2, ts3. repeat split; assumption.
Qed.

Lemma plot_renderable (verts : list (vertex F))
  (fcs mountain valley : list (list Z)) (cs : string) :
  renderable verts fcs mountain valley = true ->
  exists ts1 ts2 ts3,
    plot_origami_lattice verts fcs mountain valley cs
      = Ok (mkFigure (ts1 ++ ts2 ++ ts3) (Some scene_layout)) /\
    Forall2 (fun face t => exists rows,
               Forall2 (fun i v => nth_error verts
                                     (Z.to_nat (np_norm (len verts) i)) = Some v)
                       face rows /\
               t = face_mesh rows face cs) fcs ts1 /\
    Forall2 (fold_segment verts mountain_line "Mountain fold") mountain ts2 /\
    Forall2 (fold_segment verts valley_line "Valley fold") valley ts3.
Proof.
  intros Hr. pose proof (plot_outcome verts fcs mountain valley cs) as H.
  destruct (plot_origami_lattice verts fcs mountain valley cs) as [fig | e].
  - destruct H as [_ (ts1 & ts2 & ts3 & -> & H)].
    exists ts1, ts2, ts3. split; [reflexivity | exact H].
  - destruct H as [H _]. rewrite H in Hr. discriminate.
Qed.

(** X1: for a colour scheme of the select box, the renderer returns a
    figure exactly when every face is non-empty
    with all indices accepted by numpy (from -len to len-1) and every fold
    has at least two entries with the first two accepted; the figure then
    has one trace per face and per fold and the cube layout.  Otherwise it
    raises IndexError, and nothing else. *)
Theorem plot_origami_lattice_outcome (verts : list (vertex F))
  (fcs mountain valley : list (list Z)) (cs : string) :
  In cs color_schemes ->
  match plot_origami_lattice verts fcs mountain valley cs with
  | Ok fig =>
      renderable verts fcs mountain valley = true /\
      List.length (data fig)
        = (List.length fcs + List.length mountain + List.length valley)%nat /\
      fig_layout fig = Some scene_layout
  | Raise e =>
      renderable verts fcs mountain valley = false /\ e = IndexError
  end.
Proof.
  intros _.
  pose proof (plot_outcome verts fcs mountain valley cs) as H.
  destruct (plot_origami_lattice verts fcs mountain valley cs) as [fig | e];
    [| exact H].
  destruct H as [Hr (ts1 & ts2 & ts3 & -> & H1 & H2 & H3)].
  split; [exact Hr |]. split; [| reflexivity].
  cbn [data]. rewrite !length_app.
  rewrite <- (Forall2_length H1), <- (Forall2_length H2), <- (Forall2_length H3).
  lia.
Qed.

Lemma shifted_seq (s m t : nat) :
  map (fun k => Z.of_nat s + k) (map Z.of_nat (seq t m))
  = map Z.of_nat (seq (s + t) m).
Proof.
  revert t. induction m as [| m IH]; intros t; [reflexivity |].
  cbn [seq map]. rewrite IH, Nat.add_succ_r. f_equal. lia.
Qed.

(** The mesh of a face with its index lists written out. *)
Lemma face_mesh_indices (rows : list (vertex F)) (face : list Z) (cs : string) :
  face_mesh rows face cs =
  Mesh3d (map (fun v => fst (fst v)) rows)
         (map (fun v => snd (fst v)) rows)
         (map (fun v => snd v) rows)
         (repeat 0 (List.length face - 2))
         (map Z.of_nat (seq 1 (List.length face - 2)))
         (map Z.of_nat (seq 2 (List.length face - 2)))
         (7 # 10)%Q cs.
Proof.
  unfold face_mesh, range2, range, len.
  replace (Z.of_nat (List.length face) - 1 - 1)
    with (Z.of_nat (List.length face) - 2) by lia.
  replace (Z.to_nat (Z.of_nat (List.length face) - 2))
    with (List.length face - 2)%nat by lia.
  rewrite (shifted_seq 1 _ 0), (shifted_seq 2 _ 0). reflexivity.
Qed.

(** X2: for a colour scheme of the select box and input the renderer
    accepts, the traces are one surface per face (the mesh on the face's
    vertices with the fan index lists, opacity 0.7 and the colour scheme),
    then one line per mountain fold, then one line per valley fold,
    each in the order of the input; a mountain line is a two-point line
    between the fold's two vertices in red, width 4, solid, named
    "Mountain fold", a valley line the same in blue, dashed, named
    "Valley fold"; the layout has the cube aspect mode, the axis titles X,
    Y, Z, the legend shown and zero margins. *)
Theorem folds_rendered_as_lines (verts : list (vertex F))
  (fcs mountain valley : list (list Z)) (cs : string) :
  In cs color_schemes ->
  renderable verts fcs mountain valley = true ->
  exists fig surfaces mountain_lines valley_lines,
    plot_origami_lattice verts fcs mountain valley cs = Ok fig /\
    data fig = surfaces ++ mountain_lines ++ valley_lines /\
    Forall2 (face_surface verts cs) fcs surfaces /\
    Forall2 (fold_segment verts (mkLine "red" 4 None) "Mountain fold")
            mountain mountain_lines /\
    Forall2 (fold_segment verts (mkLine "blue" 4 (Some "dash"%string)) "Valley fold")
            valley valley_lines /\
    fig_layout fig = Some (mkLayout "cube" "X" "Y" "Z" true (0, 0, 0, 0)).
Proof.
  intros _ Hr.
  destruct (plot_renderable verts fcs mountain valley cs Hr)
    as (ts1 & ts2 & ts3 & Hplot & H1 & H2 & H3).
  eexists. exists ts1, ts2, ts3. split; [exact Hplot |].
  split; [reflexivity |]. split; [| split; [exact H2 | split; [exact H3 | reflexivity]]].
  clear -H1. induction H1 as [| face t fcs ts1 Ht _ IH]; constructor; [| exact IH].
  destruct Ht as [rows [Hrows ->]]. exists rows.
  split; [exact Hrows | apply face_mesh_indices].
Qed.

Lemma face_mesh_consistent (rows : list (vertex F)) (face : list Z) (cs : string) :
  List.length rows = List.length face ->
  trace_consistent (face_mesh rows face cs).
Proof.
  intros Hlen. unfold face_mesh, trace_consistent.
  rewrite !length_map, repeat_length, !range2_length.
  split; [reflexivity |]. split; [reflexivity |].
  split; [f_equal; lia |]. split; [f_equal; lia |].
  intros e He. unfold len in *. rewrite length_map, Hlen.
  rewrite !in_app_iff, !range2_In in He.
  destruct He as [He | [He | He]]; try lia.
  destruct (Z.to_nat (Z.of_nat (List.length face) - 2)) eqn:Hm;
    [contradiction |].
  apply repeat_spec in He. lia.
Qed.

(** X3: in every figure the renderer returns for a colour scheme of the
    select box, each mesh has coordinate
    lists of one length and index lists of one length whose entries are all
    positions in the coordinate lists, and each line has exactly two
    points. *)
Theorem rendered_traces_consistent (verts : list (vertex F))
  (fcs mountain valley : list (list Z)) (cs : string) :
  In cs color_schemes ->
  renderable verts fcs mountain valley = true ->
  exists fig,
    plot_origami_lattice verts fcs mountain valley cs = Ok fig /\
    Forall trace_consistent (data fig).
Proof.
  intros _ Hr.
  destruct (plot_renderable verts fcs mountain valley cs Hr)
    as (ts1 & ts2 & ts3 & Hplot & H1 & H2 & H3).
  eexists. split; [exact Hplot |]. cbn [data].
  rewrite !Forall_app. split; [| split].
  - clear -H1. induction H1 as [| face t fcs ts1 Ht _ IH]; constructor; [| exact IH].
    destruct Ht as [rows [Hrows ->]].
    apply face_mesh_consistent. symmetry. exact (Forall2_length Hrows).
  - clear -H2. induction H2 as [| fold t ms ts2 Ht _ IH]; constructor; [| exact IH].
    destruct Ht as (a & b & rest & p0 & p1 & _ & _ & _ & ->). now cbn.
  - clear -H3. induction H3 as [| fold t ms ts3 Ht _ IH]; constructor; [| exact IH].
    destruct Ht as (a & b & rest & p0 & p1 & _ & _ & _ & ->). now cbn.
Qed.

End RendererResults.

(** ** Indices from the end *)

Section NegativeIndices.

Context {F : Type}.

Lemma np_row_norm {A : Type} (vs : list A) (i : Z) :
  - len vs <= i -> np_row vs (np_norm (len vs) i) = np_row vs i.
Proof.
  intros Hi. unfold np_norm.
  destruct (Z.ltb_spec i 0) as [Hneg | Hpos]; [| reflexivity].
  unfold np_row.
  destruct (Z.ltb_spec (len vs + i) 0) as [Hlow | _]; [lia |].
  destruct (Z.ltb_spec i 0) as [_ | Hpos]; [reflexivity | lia].
Qed.

Lemma np_take_norm (verts : list (vertex F)) (idx : list Z) :
  (forall i, In i idx -> - len verts <= i) ->
  np_take verts (map (np_norm (len verts)) idx) = np_take verts idx.
Proof.
  induction idx as [| i idx IH]; intros Hidx; [reflexivity |].
  cbn [map np_take]. rewrite np_row_norm by (apply Hidx; now left).
  rewrite IH by (intros j Hj; apply Hidx; now right). reflexivity.
Qed.

Lemma face_trace_norm (verts : list (vertex F)) (cs : string) (face : list Z) :
  (forall i, In i face -> - len verts <= i) ->
  face_trace verts cs (map (np_norm (len verts)) face) = face_trace verts cs face.
Proof.
  intros Hidx. unfold face_trace, face_mesh, len.
  rewrite length_map. fold (len verts). now rewrite np_take_norm.
Qed.

Lemma fold_trace_norm (verts : list (vertex F)) (line : line_style)
  (name : string) (fold : list Z) :
  (forall i, In i fold -> - len verts <= i) ->
  fold_trace verts line name (map (np_norm (len verts)) fold)
  = fold_trace verts line name fold.
Proof.
  intros Hidx. unfold fold_trace.
  destruct fold as [| a [| b rest]]; [reflexivity | |]; cbn [map].
  - rewrite !np_row_head. cbn [bind].
    rewrite np_row_norm by (apply Hidx; now left).
    now rewrite !(np_row_short _ 1) by (cbn; lia).
  - rewrite !np_row_head, !np_row_second. cbn [bind].
    rewrite np_row_norm by (apply Hidx; now left).
    destruct (np_row verts a); cbn [bind]; [| reflexivity].
    now rewrite np_row_norm by (apply Hidx; right; now left).
Qed.

Lemma traverse_map {A B : Type} (f : A -> result B) (h : A -> A) (xs : list A) :
  (forall x, In x xs -> f (h x) = f x) ->
  traverse f (map h xs) = traverse f xs.
Proof.
  induction xs as [| x xs IH]; intros Hf; [reflexivity |].
  cbn [map traverse]. rewrite Hf by now left.
  rewrite IH by (intros y Hy; apply Hf; now right). reflexivity.
Qed.

(** X4: an index from the end names the same vertex as the position it stands
    for: when no index is below -len(vertices), replacing every index [i < 0]
    of the faces and folds by [len(vertices) + i] leaves the result of the
    renderer unchanged. *)
Theorem negative_indices_count_from_end (verts : list (vertex F))
  (fcs mountain valley : list (list Z)) (cs : string) :
  In cs color_schemes ->
  (forall l i, In l (fcs ++ mountain ++ valley) -> In i l -> - len verts <= i) ->
  plot_origami_lattice verts
    (map (map (np_norm (len verts))) fcs)
    (map (map (np_norm (len verts))) mountain)
    (map (map (np_norm (len verts))) valley) cs
  = plot_origami_lattice verts fcs mountain valley cs.
Proof.
  intros _ Hidx. rewrite !plot_as_traces.
  rewrite (traverse_map (face_trace verts cs)).
  2: { intros l Hl. apply face_trace_norm. intros i. apply Hidx.
       rewrite in_app_iff. now left. }
  rewrite (traverse_map (fold_trace verts mountain_line "Mountain fold")).
  2: { intros l Hl. apply fold_trace_norm. intros i. apply Hidx.
       rewrite !in_app_iff. right. now left. }
  rewrite (traverse_map (fold_trace verts valley_line "Valley fold")).
  2: { intros l Hl. apply fold_trace_norm. intros i. apply Hidx.
       rewrite !in_app_iff. right. now right. }
  reflexivity.
Qed.

End NegativeIndices.

(** ** The whole visualization *)

Section Visualization.

Context {F : Type} {ops : NumOps F}.

Lemma range_nonpos (n : Z) : n <= 0 -> range n = [].
Proof.
  intros Hn. unfold range. now replace (Z.to_nat n) with 0%nat by lia.
Qed.

Lemma filter_partition_length {A : Type} (f : A -> bool) (l : list A) :
  (List.length (filter f l) + List.length (filter (fun x => negb (f x)) l))%nat
  = List.length l.
Proof.
  induction l as [| x l IH]; [reflexivity |].
  cbn [filter]. destruct (f x); cbn [negb List.length]; lia.
Qed.

Lemma well_formed_renderable (p : pattern F) :
  well_formed p ->
  renderable (vertices p) (faces p) (mountain_folds p) (valley_folds p) = true.
Proof.
  intros (Hbounds & Hfaces & Hfolds).
  assert (Hvalid : forall l, In l (faces p ++ mountain_folds p ++ valley_folds p) ->
                   forall i, In i l -> np_valid (len (vertices p)) i = true).
  { intros l Hl i Hi. specialize (Hbounds l i Hl Hi).
    unfold np_valid, len. apply andb_true_iff.
    split; [apply Z.leb_le | apply Z.ltb_lt]; lia. }
  assert (Hfold : forall e, In e (mountain_folds p ++ valley_folds p) ->
                  fold_renderable (vertices p) e = true).
  { intros e He. specialize (Hfolds e He).
    assert (Hin : In e (faces p ++ mountain_folds p ++ valley_folds p))
      by (apply in_app_iff; now right).
    destruct e as [| a [| b [| c e]]]; try discriminate.
    cbn [fold_renderable].
    rewrite (Hvalid _ Hin a) by now left.
    rewrite (Hvalid _ Hin b) by (right; now left). reflexivity. }
  unfold renderable. rewrite !andb_true_iff. repeat split.
  - apply forallb_forall. intros f Hf. specialize (Hfaces f Hf).
    destruct f as [| i f]; [cbn in Hfaces; lia |].
    unfold face_renderable. apply forallb_forall. intros j Hj.
    apply (Hvalid (i :: f)); [apply in_app_iff; now left | exact Hj].
  - apply forallb_forall. intros e He. apply Hfold, in_app_iff. now left.
  - apply forallb_forall. intros e He. apply Hfold, in_app_iff. now right.
Qed.

Lemma plot_renderable_count (verts : list (vertex F))
  (fcs mountain valley : list (list Z)) (cs : string) :
  renderable verts fcs mountain valley = true ->
  exists fig,
    plot_origami_lattice verts fcs mountain valley cs = Ok fig /\
    List.length (data fig)
      = (List.length fcs + List.length mountain + List.length valley)%nat /\
    fig_layout fig = Some scene_layout.
Proof.
  intros Hr.
  destruct (plot_renderable verts fcs mountain valley cs Hr)
    as (ts1 & ts2 & ts3 & Hplot & H1 & H2 & H3).
  eexists. split; [exact Hplot |]. split; [| reflexivity].
  cbn [data]. rewrite !length_app.
  rewrite <- (Forall2_length H1), <- (Forall2_length H2), <- (Forall2_length H3).
  lia.
Qed.

Lemma yoshimura_ring_renderable (size : F) (n : Z) :
  renderable (vertices (yoshimura_ring size n)) (faces (yoshimura_ring size n))
             (mountain_folds (yoshimura_ring size n))
             (valley_folds (yoshimura_ring size n)) = true.
Proof.
  destruct (Z.lt_ge_cases 0 n) as [Hpos | Hneg].
  - now apply well_formed_renderable, yoshimura_ring_well_formed.
  - unfold yoshimura_ring. rewrite (range_nonpos n Hneg). reflexivity.
Qed.

Lemma yoshimura_ring_trace_count (size : F) (n : Z) :
  (List.length (faces (yoshimura_ring size n))
   + List.length (mountain_folds (yoshimura_ring size n))
   + List.length (valley_folds (yoshimura_ring size n)))%nat
  = (2 * Z.to_nat n)%nat.
Proof.
  cbn [faces mountain_folds valley_folds yoshimura_ring].
  rewrite !length_map.
  pose proof (filter_partition_length is_even_segment (range n)) as Hpart.
  rewrite range_length in *. lia.
Qed.

(** What an instance returned by the Yoshimura generator is. *)
Lemma create_yoshimura_returns (size : F) (n : Z) (p : pattern F) :
  create_yoshimura size n = Ok p ->
  n <> 0 /\ Z.abs n < float_limit /\ p = yoshimura_ring size n.
Proof.
  intros Hp.
  destruct (Z.eq_dec n 0) as [-> | Hn0]; [discriminate Hp |].
  destruct (Z.lt_ge_cases (Z.abs n) float_limit) as [Hfit | Hbig].
  - rewrite create_yoshimura_closed_form in Hp by assumption.
    injection Hp as <-. now repeat split.
  - rewrite create_yoshimura_overflow in Hp by exact Hbig. discriminate Hp.
Qed.

(** X5: the renderer never raises on a generated instance: whenever a
    generator returns an instance, whatever the pattern, size, angle and
    segment count, generating and then rendering with a colour scheme of the
    select box returns a figure, with the cube layout and 7 traces for
    Miura-ori, 12 for Waterbomb and two per segment for Yoshimura (none for
    a negative segment count). *)
Theorem generated_instance_renders (pt : pattern_type) (size angle : F)
  (n : Z) (cs : string) (p : pattern F) :
  In cs color_schemes ->
  generate pt size angle n = Ok p ->
  exists fig,
    visualize pt size angle n cs = Ok fig /\
    List.length (data fig) = trace_count pt n /\
    fig_layout fig = Some scene_layout.
Proof.
  intros _ Hgen. unfold visualize. rewrite Hgen. cbn [bind].
  destruct pt; cbn [generate] in Hgen.
  - injection Hgen as <-. now apply plot_renderable_count.
  - injection Hgen as <-. now apply plot_renderable_count.
  - apply create_yoshimura_returns in Hgen. destruct Hgen as (_ & _ & ->).
    destruct (plot_renderable_count _ _ _ _ cs (yoshimura_ring_renderable size n))
      as [fig (Hplot & Hlen & Hlay)].
    exists fig. split; [exact Hplot |]. split; [| exact Hlay].
    rewrite Hlen. apply yoshimura_ring_trace_count.
Qed.

End Visualization.

(** ** More on the Yoshimura ring *)

Section YoshimuraRing.

Context {F : Type} {ops : NumOps F}.

(** X6: for every segment count n >= 1 that converts to a float the faces
    form a closed ring: the
    last two indices of face [i] are the first two indices of face
    [(i+1) mod n] in reverse order, the last face closing on face 0. *)
Theorem yoshimura_ring_closed (size : F) (n : Z) :
  1 <= n < float_limit ->
  exists p,
    create_yoshimura size n = Ok p /\
    forall i, 0 <= i < n ->
      exists f g,
        nth_error (faces p) (Z.to_nat i) = Some f /\
        nth_error (faces p) (Z.to_nat ((i + 1) mod n)) = Some g /\
        last_two f = rev (first_two g).
Proof.
  intros Hn. exists (yoshimura_ring size n).
  split; [apply create_yoshimura_closed_form; lia |].
  intros i Hi.
  assert (Hj : 0 <= (i + 1) mod n < n) by (apply Z.mod_pos_bound; lia).
  exists (segment_face n i), (segment_face n ((i + 1) mod n)).
  split; [now apply yoshimura_ring_face |].
  split; [now apply yoshimura_ring_face |]. reflexivity.
Qed.

Lemma even_segments_count (m : nat) :
  Z.of_nat (List.length (filter is_even_segment (range (Z.of_nat m))))
  = (Z.of_nat m + 1) / 2.
Proof.
  induction m as [| m IH]; [reflexivity |].
  rewrite Nat2Z.inj_succ, <- Z.add_1_r, range_succ by lia.
  rewrite filter_app, length_app, Nat2Z.inj_add, IH.
  cbn [filter]. unfold is_even_segment at 1.
  destruct (Z.eqb_spec (Z.of_nat m mod 2) 0) as [He | Ho]; cbn [List.length].
  - Z.div_mod_to_equations. lia.
  - Z.div_mod_to_equations. lia.
Qed.

(** X7: for every segment count other than 0 that converts to a float the
    generator returns ceil(n/2) mountain folds and floor(n/2) valley folds
    (none of either for a negative count). *)
Theorem yoshimura_fold_counts (size : F) (n : Z) :
  n <> 0 ->
  Z.abs n < float_limit ->
  exists p,
    create_yoshimura size n = Ok p /\
    Z.of_nat (List.length (mountain_folds p)) = Z.max 0 ((n + 1) / 2) /\
    Z.of_nat (List.length (valley_folds p)) = Z.max 0 (n / 2).
Proof.
  intros Hn Hfit. exists (yoshimura_ring size n).
  split; [now apply create_yoshimura_closed_form |]. clear Hfit.
  cbn [mountain_folds valley_folds yoshimura_ring]. rewrite !length_map.
  destruct (Z.lt_ge_cases 0 n) as [Hpos | Hneg].
  - pose proof (filter_partition_length is_even_segment (range n)) as Hpart.
    rewrite range_length in Hpart.
    pose proof (even_segments_count (Z.to_nat n)) as Heven.
    rewrite Z2Nat.id in Heven by lia.
    split; [rewrite Heven |]; Z.div_mod_to_equations; lia.
  - rewrite (range_nonpos n Hneg). cbn [filter List.length].
    split; Z.div_mod_to_equations; lia.
Qed.

(** X8: for an odd segment count n >= 3 (that converts to a float) the
    alternation of the folds breaks
    where the ring closes: the last face, on the vertices 2(n-1), 2(n-1)+1,
    1, 0, has both of its vertical edges, that of segment n-1 and that of
    segment 0, among the mountain folds. *)
Theorem yoshimura_odd_seam (size : F) (n : Z) :
  3 <= n < float_limit ->
  Z.odd n = true ->
  exists p,
    create_yoshimura size n = Ok p /\
    nth_error (faces p) (Z.to_nat (n - 1))
      = Some [2 * (n - 1); 2 * (n - 1) + 1; 1; 0] /\
    In [2 * (n - 1); 2 * (n - 1) + 1] (mountain_folds p) /\
    In [0; 1] (mountain_folds p).
Proof.
  intros Hn Hodd. exists (yoshimura_ring size n).
  split; [apply create_yoshimura_closed_form; lia |]. split; [| split].
  - rewrite yoshimura_ring_face by lia. unfold segment_face.
    replace (n - 1 + 1) with n by lia. rewrite Z_mod_same_full. reflexivity.
  - change [2 * (n - 1); 2 * (n - 1) + 1] with (segment_fold (n - 1)).
    apply yoshimura_ring_mountain. split; [lia |].
    now rewrite Z.sub_1_r, Z.even_pred.
  - change [0; 1] with (segment_fold 0).
    apply yoshimura_ring_mountain. split; [lia | reflexivity].
Qed.

End YoshimuraRing.

(** ** Faces and vertices of the generated instances *)

Section FacesAndVertices.

Context {F : Type} {ops : NumOps F}.

Lemma vertices_used_check (p : pattern F) :
  forallb (fun k => existsb (fun f => existsb (Z.eqb k) f) (faces p))
          (range (len (vertices p))) = true ->
  forall k, 0 <= k < len (vertices p) ->
    exists face, In face (faces p) /\ In k face.
Proof.
  intros Hb k Hk. rewrite forallb_forall in Hb.
  specialize (Hb k (proj2 (range_In _ _) Hk)).
  apply existsb_exists in Hb. destruct Hb as [face [Hface Hin]].
  apply existsb_exists in Hin. destruct Hin as [k' [Hk' Heq]].
  apply Z.eqb_eq in Heq. subst k'. now exists face.
Qed.

(** X9: no generated instance has an unused vertex: every position of the
    vertex list occurs in some face. *)
Theorem generated_vertices_used (pt : pattern_type) (size angle : F) (n : Z) :
  (pt = Yoshimura -> n <> 0 /\ Z.abs n < float_limit) ->
  exists p,
    generate pt size angle n = Ok p /\
    forall k, 0 <= k < len (vertices p) ->
      exists face, In face (faces p) /\ In k face.
Proof.
  intros Hn. eexists. split; [now apply generate_ok |].
  destruct pt.
  - now apply vertices_used_check.
  - now apply vertices_used_check.
  - intros k Hk.
    destruct (Z.lt_ge_cases 0 n) as [Hpos | Hneg].
    + unfold len in Hk. rewrite yoshimura_ring_vertices_length in Hk by exact Hpos.
      exists (segment_face n (k / 2)). split.
      * cbn [faces yoshimura_ring]. apply in_map, range_In.
        Z.div_mod_to_equations. lia.
      * unfold segment_face, base, top. cbn [In].
        Z.div_mod_to_equations. lia.
    + unfold yoshimura_ring in Hk. rewrite (range_nonpos n Hneg) in Hk.
      cbn in Hk. lia.
Qed.

Lemma segment_face_NoDup (n i : Z) :
  2 <= n -> 0 <= i < n -> NoDup (segment_face n i).
Proof.
  intros Hn Hi.
  assert (Hj : 0 <= (i + 1) mod n < n) by (apply Z.mod_pos_bound; lia).
  assert (Hne : (i + 1) mod n <> i).
  { destruct (Z.eq_dec (i + 1) n) as [Heq | Hlt].
    - rewrite Heq, Z_mod_same_full. lia.
    - rewrite Z.mod_small by lia. lia. }
  unfold segment_face, base, top.
  repeat (constructor; [cbn [In]; lia |]). constructor.
Qed.

(** X10: every face of a generated instance names pairwise distinct
    vertices; for the Yoshimura ring this needs at least 2 segments. *)
Theorem generated_faces_distinct_indices
  (pt : pattern_type) (size angle : F) (n : Z) :
  (pt = Yoshimura -> 2 <= n < float_limit) ->
  exists p,
    generate pt size angle n = Ok p /\
    forall face, In face (faces p) -> NoDup face.
Proof.
  intros Hn. eexists. split.
  - apply generate_ok. intros Hpt. specialize (Hn Hpt). lia.
  - destruct pt.
    + cbn [faces create_miura_ori In].
      intros face [<- | [<- | []]];
        repeat (constructor; [cbn [In]; lia |]); constructor.
    + cbn [faces create_waterbomb In].
      intros face [<- | [<- | [<- | [<- | [<- | [<- | []]]]]]];
        repeat (constructor; [cbn [In]; lia |]); constructor.
    + intros face Hface. cbn [faces yoshimura_ring] in Hface.
      apply in_map_iff in Hface. destruct Hface as [i [<- Hi]].
      apply segment_face_NoDup; [now apply Hn | now apply range_In].
Qed.

(** With a single segment the face names each of its two vertices twice. *)
Example yoshimura_single_segment (size : F) :
  exists p, create_yoshimura size 1 = Ok p /\ faces p = [ [0; 1; 1; 0] ].
Proof. eexists. split; reflexivity. Qed.

End FacesAndVertices.

(** ** Edge lengths, in real arithmetic *)

Section EdgeLengths.

Import Ideal.

Local Open Scope R_scope.

Lemma sin_cos_square (x : R) : sin x * sin x + cos x * cos x = 1.
Proof. exact (sin2_cos2 x). Qed.

(** X11: in real arithmetic, for every size and angle, every edge of the two
    faces of the Miura-ori cell has length size: both faces are rhombi. *)
Theorem miura_ori_faces_rhombi (size angle : R) :
  faces_equilateral (create_miura_ori size angle) size.
Proof.
  intros face a b Hface Hedge.
  pose proof (sin_cos_square (angle * (PI / 180))) as Htrig.
  cbn [faces create_miura_ori In] in Hface.
  destruct Hface as [<- | [<- | []]];
    cbn [face_edges combine app In] in Hedge;
    repeat (destruct Hedge as [Hedge | Hedge];
            [injection Hedge as <- <-;
             unfold vertex_at, dist2 | ]);
    try contradiction.
  all: eval_vertices; cbn [vertices create_miura_ori nth fst snd].
  all: cbn [of_int fmul fdiv fneg np_cos np_sin np_pi np_radians RealOps].
  all: first
         [ ring
         | transitivity
             (size * size
              * (sin (angle * (PI / 180)) * sin (angle * (PI / 180))
                 + cos (angle * (PI / 180)) * cos (angle * (PI / 180))));
           [ring | rewrite Htrig; ring] ].
Qed.

(** X12: in real arithmetic, for every size, every edge of the six faces of
    the Waterbomb cell, spoke or rim, has length size: the faces are
    equilateral triangles. *)
Theorem waterbomb_faces_equilateral (size : R) :
  faces_equilateral (create_waterbomb size) size.
Proof.
  intros face a b Hface Hedge.
  assert (Hsqrt : sqrt 3 * sqrt 3 = 3) by (apply sqrt_sqrt; lra).
  cbn [faces create_waterbomb In] in Hface.
  repeat (destruct Hface as [<- | Hface];
          [cbn [face_edges combine app In] in Hedge;
           repeat (destruct Hedge as [Hedge | Hedge];
                   [injection Hedge as <- <-; unfold vertex_at, dist2 | ]);
           try contradiction | ]);
    try contradiction.
  all: eval_vertices; cbn [vertices create_waterbomb nth fst snd].
  all: cbn [of_int fmul fdiv fneg np_cos np_sin np_pi np_radians RealOps].
  all: rewrite ?cos_PI3, ?sin_PI3.
  all: first
         [ field
         | transitivity (size * size * (1 / 4) + size * size * (1 / 4) * (sqrt 3 * sqrt 3));
           [field | rewrite Hsqrt; field]
         | transitivity (size * size * (sqrt 3 * sqrt 3) * (1 / 3));
           [field | rewrite Hsqrt; field] ].
Qed.

Lemma vertex_at_nth_error (vs : list (vertex R)) (i : Z) (v : vertex R) :
  nth_error vs (Z.to_nat i) = Some v -> vertex_at vs i = v.
Proof. intros Hv. unfold vertex_at. now apply nth_error_nth. Qed.

(** Square of the chord between two points of the unit circle. *)
Lemma chord_square (a b : R) :
  (cos a - cos b) * (cos a - cos b) + (sin a - sin b) * (sin a - sin b)
  = 2 * (1 - cos (a - b)).
Proof.
  rewrite cos_minus.
  pose proof (sin_cos_square a) as Ha. pose proof (sin_cos_square b) as Hb.
  transitivity ((sin a * sin a + cos a * cos a) + (sin b * sin b + cos b * cos b)
                - 2 * (cos a * cos b + sin a * sin b)); [ring |].
  rewrite Ha, Hb. ring.
Qed.

(** The angle between a segment and its successor in the ring, also where
    the ring closes. *)
Lemma successor_angle (n i : Z) :
  (0 <= i < n)%Z ->
  cos (IZR i * (2 * PI / IZR n) - IZR ((i + 1) mod n) * (2 * PI / IZR n))
  = cos (2 * PI / IZR n).
Proof.
  intros Hi.
  assert (Hn : IZR n <> 0) by (apply not_0_IZR; lia).
  destruct (Z.eq_dec (i + 1) n) as [Heq | Hlt].
  - rewrite Heq, Z_mod_same_full.
    replace i with (n - 1)%Z by lia. rewrite minus_IZR.
    replace ((IZR n - 1) * (2 * PI / IZR n) - 0 * (2 * PI / IZR n))
      with (- (2 * PI / IZR n) + PI + PI) by (field; exact Hn).
    rewrite !neg_cos, cos_neg. ring.
  - rewrite Z.mod_small by lia. rewrite plus_IZR.
    replace (IZR i * (2 * PI / IZR n) - (IZR i + 1) * (2 * PI / IZR n))
      with (- (2 * PI / IZR n)) by (field; exact Hn).
    apply cos_neg.
Qed.

(** X13: in real arithmetic, for every size and segment count n >= 1 that
    converts to a float, the
    Yoshimura cell is a right prism on a regular polygon: every vertical
    edge has length size / 2, and every base edge and every top edge between
    a segment and its successor, also where the ring closes, has the same
    squared length 2 size^2 (1 - cos (2 pi / n)). *)
Theorem yoshimura_regular_prism (size : R) (n : Z) :
  (1 <= n < float_limit)%Z ->
  exists p,
    create_yoshimura size n = Ok p /\
    forall i : Z, (0 <= i < n)%Z ->
      let j := ((i + 1) mod n)%Z in
      let vs := vertices p in
      dist2 (vertex_at vs (2 * i)) (vertex_at vs (2 * i + 1))
        = size / 2 * (size / 2) /\
      dist2 (vertex_at vs (2 * i)) (vertex_at vs (2 * j))
        = 2 * size * size * (1 - cos (2 * PI / IZR n)) /\
      dist2 (vertex_at vs (2 * i + 1)) (vertex_at vs (2 * j + 1))
        = 2 * size * size * (1 - cos (2 * PI / IZR n)).
Proof.
  intros Hn. exists (yoshimura_ring size n).
  split; [apply create_yoshimura_closed_form; lia |].
  intros i Hi j vs.
  assert (Hj : (0 <= j < n)%Z) by (apply Z.mod_pos_bound; lia).
  destruct (yoshimura_ring_vertices size n i Hi) as [Hbi Hti].
  destruct (yoshimura_ring_vertices size n j Hj) as [Hbj Htj].
  apply vertex_at_nth_error in Hbi, Hti, Hbj, Htj.
  fold vs in Hbi, Hti, Hbj, Htj. unfold base, top in Hbi, Hti, Hbj, Htj.
  rewrite Hbi, Hti, Hbj, Htj.
  unfold dist2, base_vertex, top_vertex, segment_angle. cbn [fst snd].
  cbn [of_int fmul fdiv fneg np_cos np_sin np_pi np_radians RealOps].
  pose proof (chord_square (IZR i * (2 * PI / IZR n))
                           (IZR j * (2 * PI / IZR n))) as Hchord.
  unfold j in Hchord. rewrite (successor_angle n i Hi) in Hchord. fold j in Hchord.
  split; [field |].
  split.
  - transitivity
      (size * size
       * ((cos (IZR i * (2 * PI / IZR n)) - cos (IZR j * (2 * PI / IZR n)))
          * (cos (IZR i * (2 * PI / IZR n)) - cos (IZR j * (2 * PI / IZR n)))
          + (sin (IZR i * (2 * PI / IZR n)) - sin (IZR j * (2 * PI / IZR n)))
            * (sin (IZR i * (2 * PI / IZR n)) - sin (IZR j * (2 * PI / IZR n)))));
      [ring | rewrite Hchord; ring].
  - transitivity
      (size * size
       * ((cos (IZR i * (2 * PI / IZR n)) - cos (IZR j * (2 * PI / IZR n)))
          * (cos (IZR i * (2 * PI / IZR n)) - cos (IZR j * (2 * PI / IZR n)))
          + (sin (IZR i * (2 * PI / IZR n)) - sin (IZR j * (2 * PI / IZR n)))
            * (sin (IZR i * (2 * PI / IZR n)) - sin (IZR j * (2 * PI / IZR n)))));
      [field | rewrite Hchord; ring].
Qed.

End EdgeLengths.

(** ** Entries of a fold beyond the second *)

Section LongFolds.

Context {F : Type}.

Lemma fold_trace_firstn (verts : list (vertex F)) (line : line_style)
  (name : string) (fold : list Z) :
  fold_trace verts line name (firstn 2 fold) = fold_trace verts line name fold.
Proof.
  destruct fold as [| a [| b rest]]; [reflexivity | reflexivity |].
  cbn [firstn]. unfold fold_trace.
  now rewrite !np_row_head, !np_row_second.
Qed.

(** X14: the renderer reads only the first two entries of a fold: cutting
    every fold to its first two entries leaves the result unchanged. *)
Theorem fold_entries_beyond_second_ignored (verts : list (vertex F))
  (fcs mountain valley : list (list Z)) (cs : string) :
  In cs color_schemes ->
  plot_origami_lattice verts fcs (map (firstn 2) mountain)
                       (map (firstn 2) valley) cs
  = plot_origami_lattice verts fcs mountain valley cs.
Proof.
  intros _. rewrite !plot_as_traces.
  rewrite (traverse_map (fold_trace verts mountain_line "Mountain fold"))
    by (intros; apply fold_trace_firstn).
  rewrite (traverse_map (fold_trace verts valley_line "Valley fold"))
    by (intros; apply fold_trace_firstn).
  reflexivity.
Qed.

End LongFolds.

(** ** The further theorems at concrete inputs *)

Section MoreWitnesses.

Import Ideal.

Local Open Scope R_scope.

Lemma plasma_scheme : In "Plasma"%string color_schemes.
Proof. right. left. reflexivity. Defined.

Lemma plot_origami_lattice_outcome_witness :
  In "Plasma"%string color_schemes /\
  plot_origami_lattice [ (0, 0, 0); (1, 0, 0); (0, 1, 0) ]
    [ [0; 1; 3] ]%Z [ [0; -2] ]%Z [ [1; 2] ]%Z "Plasma" = Raise IndexError.
Proof.
  split; [exact plasma_scheme |].
  pose proof (plot_origami_lattice_outcome
                [ (0, 0, 0); (1, 0, 0); (0, 1, 0) ]
                [ [0; 1; 3] ]%Z [ [0; -2] ]%Z [ [1; 2] ]%Z "Plasma"
                plasma_scheme) as H.
  destruct (plot_origami_lattice [ (0, 0, 0); (1, 0, 0); (0, 1, 0) ]
              [ [0; 1; 3] ]%Z [ [0; -2] ]%Z [ [1; 2] ]%Z "Plasma") as [fig | e].
  - destruct H as [H _]. discriminate H.
  - destruct H as [_ ->]. reflexivity.
Defined.

Lemma five_segments_convert : (Z.abs 5 < float_limit)%Z.
Proof. reflexivity. Defined.

Lemma generated_instance_renders_witness :
  In "Plasma"%string color_schemes /\
  exists p fig,
    generate Yoshimura 1 45 5 = Ok p /\
    visualize Yoshimura 1 45 5 "Plasma" = Ok fig /\
    List.length (data fig) = 10%nat.
Proof.
  split; [exact plasma_scheme |].
  assert (Hgen : generate Yoshimura 1 45 5 = Ok (yoshimura_ring 1 5)).
  { apply (create_yoshimura_closed_form 1 5); [discriminate | reflexivity]. }
  destruct (generated_instance_renders Yoshimura 1 45 5 "Plasma" _
              plasma_scheme Hgen) as [fig (Hfig & Hlen & _)].
  exists (yoshimura_ring 1 5), fig. repeat split; assumption.
Defined.

Lemma fold_entries_beyond_second_ignored_witness :
  In "Plasma"%string color_schemes /\
  plot_origami_lattice [ (0, 0, 0); (1, 0, 0); (0, 1, 0) ]
    [ [0; 1; 2] ]%Z [ [0; 1] ]%Z [ [1; 2] ]%Z "Plasma"
  = plot_origami_lattice [ (0, 0, 0); (1, 0, 0); (0, 1, 0) ]
      [ [0; 1; 2] ]%Z [ [0; 1; 7] ]%Z [ [1; 2; 9; 9] ]%Z "Plasma".
Proof.
  split; [exact plasma_scheme |].
  exact (fold_entries_beyond_second_ignored
           [ (0, 0, 0); (1, 0, 0); (0, 1, 0) ]
           [ [0; 1; 2] ]%Z [ [0; 1; 7] ]%Z [ [1; 2; 9; 9] ]%Z "Plasma"
           plasma_scheme).
Defined.

Lemma folds_rendered_as_lines_witness :
  renderable [ (0, 0, 0); (1, 0, 0); (0, 1, 0) ]
             [ [0; 1; -1] ]%Z [ [0; -2] ]%Z [ [1; 2] ]%Z = true /\
  exists fig surfaces mountain_lines valley_lines,
    plot_origami_lattice [ (0, 0, 0); (1, 0, 0); (0, 1, 0) ]
      [ [0; 1; -1] ]%Z [ [0; -2] ]%Z [ [1; 2] ]%Z "Plasma" = Ok fig /\
    data fig = surfaces ++ mountain_lines ++ valley_lines /\
    List.length surfaces = 1%nat /\
    List.length mountain_lines = 1%nat /\
    List.length valley_lines = 1%nat.
Proof.
  split; [reflexivity |].
  destruct (folds_rendered_as_lines
              [ (0, 0, 0); (1, 0, 0); (0, 1, 0) ]
              [ [0; 1; -1] ]%Z [ [0; -2] ]%Z [ [1; 2] ]%Z "Plasma"
              plasma_scheme eq_refl)
    as (fig & ss & ms & vs & Hplot & Hdata & Hs & Hm & Hv & _).
  exists fig, ss, ms, vs. split; [exact Hplot |]. split; [exact Hdata |].
  split; [exact (eq_sym (Forall2_length Hs)) |].
  split; [exact (eq_sym (Forall2_length Hm)) | exact (eq_sym (Forall2_length Hv))].
Defined.

Lemma rendered_traces_consistent_witness :
  renderable [ (0, 0, 0); (1, 0, 0); (0, 1, 0) ]
             [ [0; 1; -1] ]%Z [ [0; -2] ]%Z [ [1; 2] ]%Z = true /\
  exists fig,
    plot_origami_lattice [ (0, 0, 0); (1, 0, 0); (0, 1, 0) ]
      [ [0; 1; -1] ]%Z [ [0; -2] ]%Z [ [1; 2] ]%Z "Plasma" = Ok fig /\
    Forall trace_consistent (data fig).
Proof.
  split; [reflexivity |].
  exact (rendered_traces_consistent
           [ (0, 0, 0); (1, 0, 0); (0, 1, 0) ]
           [ [0; 1; -1] ]%Z [ [0; -2] ]%Z [ [1; 2] ]%Z "Plasma"
              plasma_scheme eq_refl).
Defined.

Lemma negative_indices_count_from_end_witness :
  plot_origami_lattice [ (0, 0, 0); (1, 0, 0); (0, 1, 0) ]
    [ [0; 1; 2] ]%Z [ [0; 1] ]%Z [ [1; 2] ]%Z "Plasma"
  = plot_origami_lattice [ (0, 0, 0); (1, 0, 0); (0, 1, 0) ]
      [ [0; 1; -1] ]%Z [ [0; -2] ]%Z [ [1; 2] ]%Z "Plasma".
Proof.
  apply (negative_indices_count_from_end
           [ (0, 0, 0); (1, 0, 0); (0, 1, 0) ]
           [ [0; 1; -1] ]%Z [ [0; -2] ]%Z [ [1; 2] ]%Z "Plasma" plasma_scheme).
  intros l i Hl Hi. unfold len. cbn [List.length app In] in *.
  destruct Hl as [<- | [<- | [<- | []]]]; cbn [In] in Hi; lia.
Defined.

Lemma yoshimura_ring_closed_witness :
  (1 <= 5 < float_limit)%Z /\
  exists p,
    create_yoshimura 1 5 = Ok p /\
    forall i, (0 <= i < 5)%Z ->
      exists f g,
        nth_error (faces p) (Z.to_nat i) = Some f /\
        nth_error (faces p) (Z.to_nat ((i + 1) mod 5)) = Some g /\
        last_two f = rev (first_two g).
Proof.
  assert (H5 : (1 <= 5 < float_limit)%Z)
    by (split; [discriminate | reflexivity]).
  split; [exact H5 |]. apply (yoshimura_ring_closed 1 5). exact H5.
Defined.

Lemma yoshimura_fold_counts_witness :
  5%Z <> 0%Z /\ (Z.abs 5 < float_limit)%Z /\
  exists p,
    create_yoshimura 1 5 = Ok p /\
    Z.of_nat (List.length (mountain_folds p)) = 3%Z /\
    Z.of_nat (List.length (valley_folds p)) = 2%Z.
Proof.
  split; [discriminate |]. split; [exact five_segments_convert |].
  apply (yoshimura_fold_counts 1 5); [discriminate | exact five_segments_convert].
Defined.

Lemma yoshimura_odd_seam_witness :
  (3 <= 5 < float_limit)%Z /\ Z.odd 5 = true /\
  exists p,
    create_yoshimura 1 5 = Ok p /\
    nth_error (faces p) 4 = Some [8; 9; 1; 0]%Z /\
    In [8; 9]%Z (mountain_folds p) /\
    In [0; 1]%Z (mountain_folds p).
Proof.
  assert (H5 : (3 <= 5 < float_limit)%Z)
    by (split; [discriminate | reflexivity]).
  split; [exact H5 |]. split; [reflexivity |].
  apply (yoshimura_odd_seam 1 5); [exact H5 | reflexivity].
Defined.

Lemma generated_vertices_used_witness :
  (Yoshimura = Yoshimura -> 5%Z <> 0%Z /\ (Z.abs 5 < float_limit)%Z) /\
  exists p,
    generate Yoshimura 1 45 5 = Ok p /\
    forall k, (0 <= k < len (vertices p))%Z ->
      exists face, In face (faces p) /\ In k face.
Proof.
  assert (H5 : 5%Z <> 0%Z /\ (Z.abs 5 < float_limit)%Z)
    by (split; [discriminate | reflexivity]).
  split; [intros _; exact H5 |].
  apply (generated_vertices_used Yoshimura 1 45 5). intros _. exact H5.
Defined.

Lemma generated_faces_distinct_indices_witness :
  (Yoshimura = Yoshimura -> (2 <= 5 < float_limit)%Z) /\
  exists p,
    generate Yoshimura 1 45 5 = Ok p /\
    forall face, In face (faces p) -> NoDup face.
Proof.
  assert (H5 : (2 <= 5 < float_limit)%Z)
    by (split; [discriminate | reflexivity]).
  split; [intros _; exact H5 |].
  apply (generated_faces_distinct_indices Yoshimura 1 45 5). intros _. exact H5.
Defined.

Lemma yoshimura_regular_prism_witness :
  (1 <= 6 < float_limit)%Z /\
  exists p,
    create_yoshimura 1 6 = Ok p /\
    dist2 (vertex_at (vertices p) 10) (vertex_at (vertices p) 0)
      = 2 * 1 * 1 * (1 - cos (2 * PI / 6)).
Proof.
  assert (H6 : (1 <= 6 < float_limit)%Z)
    by (split; [discriminate | reflexivity]).
  split; [exact H6 |].
  destruct (yoshimura_regular_prism 1 6 H6) as [p [Hp Hedges]].
  exists p. split; [exact Hp |].
  exact (proj1 (proj2 (Hedges 5%Z ltac:(lia)))).
Defined.

End MoreWitnesses.
